(** * The FastAPI todo service ([FastAPI/main.py]): model and properties

    The service keeps one module-level list, [todos_storage], and exposes
    handlers that validate their input with Pydantic models, scan the list
    and mutate the records they find in place.

    Modelling choices:
    - a Python [str] is the list of its Unicode code points, lone
      surrogates included;
    - a request body is a JSON object: every key is missing, [null], or
      carries a value of the declared type (values are taken after JSON
      decoding and Pydantic's coercion to that type);
    - [uuid4()] and [datetime.now()] are read from the environment, so the
      handlers that call them receive their results as arguments;
    - handlers run in a state-and-exception monad over [todos_storage];
      a reference to a stored record is its position in the list. No
      record is stored twice, so positions and object identities agree;
    - every handler awaits [simulate_async_operation()] before it first
      reads the storage and never suspends afterwards, so the handler
      bodies run one after the other; the sleep itself is left out;
    - a handler returns the Python value it computes; turning that value
      into an HTTP response is not part of the model. *)

From stdpp Require Import base tactics option list gmap strings pretty.
From Stdlib Require Import ZArith Lia.

Local Open Scope Z_scope.

(** ** Python strings *)

Definition pystr := list N.

(** Code points of an ASCII literal, to write examples. *)
Definition py (s : string) : pystr :=
  (λ a, Ascii.N_of_ascii a) <$> String.list_ascii_of_string s.

(** [str.isspace] on one code point (CPython's [Py_UNICODE_ISSPACE]). *)
Definition isspace (c : N) : bool :=
  (((9 <=? c) && (c <=? 13)) || ((28 <=? c) && (c <=? 32))
   || (c =? 133) || (c =? 160) || (c =? 5760)
   || ((8192 <=? c) && (c <=? 8202))
   || (c =? 8232) || (c =? 8233) || (c =? 8239) || (c =? 8287)
   || (c =? 12288))%N.

Fixpoint lstrip (s : pystr) : pystr :=
  match s with
  | [] => []
  | c :: s' => if isspace c then lstrip s' else s
  end.

Definition rstrip (s : pystr) : pystr := reverse (lstrip (reverse s)).

(** [str.strip()] without argument. *)
Definition strip (s : pystr) : pystr := rstrip (lstrip s).

(** Truth value of a string: [bool(s)]. *)
Definition str_truthy (s : pystr) : bool :=
  match s with [] => false | _ => true end.

(** ** JSON bodies and keyword arguments *)

Inductive arg (A : Type) : Type :=
  | Missing
  | Null
  | Given (a : A).
Arguments Missing {A}.
Arguments Null {A}.
Arguments Given {A} a.

(** The four keys the models read; other keys of a body are ignored. *)
Record payload := Payload {
  p_title : arg pystr;
  p_description : arg pystr;
  p_priority : arg Z;
  p_completed : arg bool
}.

(** [Field(min_length=.., max_length=..)] on a string. *)
Definition str_length_ok (min_length max_length : Z) (v : pystr) : bool :=
  (min_length <=? Z.of_nat (length v)) && (Z.of_nat (length v) <=? max_length).

(** A surrogate code point (U+D800..U+DFFF). A Python [str] can hold one
    on its own, for instance from the JSON escape of a lone surrogate,
    but such a string has no UTF-8 encoding. *)
Definition surrogate (c : N) : bool := ((55296 <=? c) && (c <=? 57343))%N.

Definition encodable (v : pystr) : bool := forallb (λ c, negb (surrogate c)) v.

(** Pydantic's validation of a [str] field: the string must be encodable
    (otherwise the error is [string_unicode]) and meet the length bounds
    of its [Field]. *)
Definition str_field_ok (min_length max_length : Z) (v : pystr) : bool :=
  encodable v && str_length_ok min_length max_length v.

(** [Field(ge=.., le=..)] on an integer. *)
Definition int_range_ok (ge le : Z) (v : Z) : bool :=
  (ge <=? v) && (v <=? le).

(** ** Pydantic models *)

Module TodoBase.

Record t := Make {
  title : pystr;
  description : option pystr;
  priority : Z;
  completed : bool
}.

(** The [title] validator; [None] stands for the raised [ValueError]. *)
Definition title_must_not_be_empty (v : pystr) : option pystr :=
  if negb (str_truthy (strip v)) then None else Some (strip v).

Definition validate_title (a : arg pystr) : option pystr :=
  match a with
  | Given v => if str_field_ok 1 200 v then title_must_not_be_empty v else None
  | Null | Missing => None
  end.

Definition validate_description (a : arg pystr) : option (option pystr) :=
  match a with
  | Given v => if str_field_ok 0 1000 v then Some (Some v) else None
  | Null | Missing => Some None
  end.

Definition validate_priority (a : arg Z) : option Z :=
  match a with
  | Given v => if int_range_ok 1 5 v then Some v else None
  | Null => None
  | Missing => Some 1
  end.

Definition validate_completed (a : arg bool) : option bool :=
  match a with
  | Given v => Some v
  | Null => None
  | Missing => Some false
  end.

(** Model validation: [None] when any field is rejected. *)
Definition validate (p : payload) : option t :=
  title ← validate_title (p_title p);
  description ← validate_description (p_description p);
  priority ← validate_priority (p_priority p);
  completed ← validate_completed (p_completed p);
  Some (Make title description priority completed).

(** [model_dump()]: all four fields, as keyword arguments. *)
Definition model_dump (m : t) : payload :=
  Payload (Given (title m))
          (match description m with Some d => Given d | None => Null end)
          (Given (priority m))
          (Given (completed m)).

End TodoBase.

(** [TodoCreate] adds nothing to [TodoBase]. *)
Module TodoCreate := TodoBase.

Module TodoUpdate.

(** Every field is unset ([Missing]), set to [None] ([Null]) or set to a
    value: this is the field value together with [model_fields_set]. *)
Record t := Make {
  title : arg pystr;
  description : arg pystr;
  priority : arg Z;
  completed : arg bool
}.

(** The [title] validator on [str | None]; the outer [None] stands for
    the raised [ValueError]. *)
Definition title_must_not_be_empty (v : option pystr) : option (option pystr) :=
  match v with
  | Some s =>
      if negb (str_truthy (strip s)) then None
      else Some (if str_truthy s then Some (strip s) else v)
  | None => Some v
  end.

Definition of_value {A} (v : option A) : arg A :=
  match v with Some a => Given a | None => Null end.

Definition validate_title (a : arg pystr) : option (arg pystr) :=
  match a with
  | Given v =>
      if str_field_ok 1 200 v
      then of_value <$> title_must_not_be_empty (Some v)
      else None
  | Null => of_value <$> title_must_not_be_empty None
  | Missing => Some Missing
  end.

Definition validate_description (a : arg pystr) : option (arg pystr) :=
  match a with
  | Given v => if str_field_ok 0 1000 v then Some (Given v) else None
  | Null => Some Null
  | Missing => Some Missing
  end.

Definition validate_priority (a : arg Z) : option (arg Z) :=
  match a with
  | Given v => if int_range_ok 1 5 v then Some (Given v) else None
  | Null => Some Null
  | Missing => Some Missing
  end.

Definition validate_completed (a : arg bool) : option (arg bool) := Some a.

Definition validate (p : payload) : option t :=
  title ← validate_title (p_title p);
  description ← validate_description (p_description p);
  priority ← validate_priority (p_priority p);
  completed ← validate_completed (p_completed p);
  Some (Make title description priority completed).

End TodoUpdate.

Definition UUID := N.
Definition datetime := Z.

(** An attribute assignment [setattr(todo, field, value)]. Assignment does
    not validate, so the assigned value can be [None] for any field. *)
Inductive assignment :=
  | SetTitle (v : option pystr)
  | SetDescription (v : option pystr)
  | SetPriority (v : option Z)
  | SetCompleted (v : option bool)
  | SetUpdatedAt (v : option datetime).

Module Todo.

(** A stored record. The four content attributes hold what was last
    assigned to them, which after an update can be [None]. *)
Record t := Make {
  id : UUID;
  title : option pystr;
  description : option pystr;
  priority : option Z;
  completed : option bool;
  created_at : datetime;
  updated_at : option datetime
}.

#[global] Instance eq_dec : EqDecision t.
Proof. solve_decision. Defined.

(** The constructor [Todo] on keyword arguments: the inherited [TodoBase]
    validation, then the defaults [id = uuid4()],
    [created_at = datetime.now()] and [updated_at = None]. *)
Definition init (kwargs : payload) (uuid4 : UUID) (now : datetime) : option t :=
  b ← TodoBase.validate kwargs;
  Some (Make uuid4 (Some (TodoBase.title b)) (TodoBase.description b)
             (Some (TodoBase.priority b)) (Some (TodoBase.completed b))
             now None).

Definition setattr (o : t) (a : assignment) : t :=
  match a with
  | SetTitle v => Make (id o) v (description o) (priority o) (completed o) (created_at o) (updated_at o)
  | SetDescription v => Make (id o) (title o) v (priority o) (completed o) (created_at o) (updated_at o)
  | SetPriority v => Make (id o) (title o) (description o) v (completed o) (created_at o) (updated_at o)
  | SetCompleted v => Make (id o) (title o) (description o) (priority o) v (created_at o) (updated_at o)
  | SetUpdatedAt v => Make (id o) (title o) (description o) (priority o) (completed o) (created_at o) v
  end.

End Todo.

(** [todo_update.model_dump(exclude_unset=True).items()]: one entry per
    field that the body set, in field order, [null] included. *)
Definition model_dump_exclude_unset (u : TodoUpdate.t) : list assignment :=
  match TodoUpdate.title u with
  | Missing => [] | Null => [SetTitle None] | Given v => [SetTitle (Some v)] end ++
  match TodoUpdate.description u with
  | Missing => [] | Null => [SetDescription None] | Given v => [SetDescription (Some v)] end ++
  match TodoUpdate.priority u with
  | Missing => [] | Null => [SetPriority None] | Given v => [SetPriority (Some v)] end ++
  match TodoUpdate.completed u with
  | Missing => [] | Null => [SetCompleted None] | Given v => [SetCompleted (Some v)] end.

(** Truth value of a [bool | None] attribute. *)
Definition truthy (v : option bool) : bool :=
  match v with Some b => b | None => false end.

(** ** Storage, exceptions and the handler monad *)

Abbreviation storage := (list Todo.t).

Inductive exn :=
  | RequestValidationError          (* 422: body or query rejected *)
  | TodoNotFoundError (todo_id : UUID) (* 404 *)
  | ValueError                      (* raised inside a handler *)
  | IndexError.                     (* dangling reference *)

Inductive result (A : Type) : Type :=
  | Ok (a : A)
  | Raise (e : exn).
Arguments Ok {A} a.
Arguments Raise {A} e.

Definition M (A : Type) : Type := storage → result A * storage.

Definition ret {A} (a : A) : M A := λ s, (Ok a, s).
Definition raise {A} (e : exn) : M A := λ s, (Raise e, s).
Definition bind {A B} (c : M A) (k : A → M B) : M B :=
  λ s, match c s with
       | (Ok a, s') => k a s'
       | (Raise e, s') => (Raise e, s')
       end.
Definition get_storage : M storage := λ s, (Ok s, s).
Definition put_storage (s' : storage) : M unit := λ _, (Ok tt, s').

Notation "x <~ c ;; k" := (bind c (λ x, k))
  (at level 100, c at next level, right associativity).
Notation "c ;;; k" := (bind c (λ _, k))
  (at level 100, right associativity).

Fixpoint foreach {A} (l : list A) (body : A → M unit) : M unit :=
  match l with
  | [] => ret tt
  | x :: l' => body x ;;; foreach l' body
  end.

(** A reference to a stored record: its position in [todos_storage]. *)
Abbreviation ref := nat.

Definition deref (r : ref) : M Todo.t :=
  s <~ get_storage ;;
  match s !! r with
  | Some o => ret o
  | None => raise IndexError
  end.

(** [setattr(todo, field, value)] on a stored record: in place. *)
Definition setattr (r : ref) (a : assignment) : M unit :=
  o <~ deref r ;;
  s <~ get_storage ;;
  put_storage (<[r := Todo.setattr o a]> s).

(** The request layer runs before the handler body: a rejected body or
    query parameter answers 422 and the body never runs. *)
Definition parse {A} (v : option A) : M A :=
  match v with
  | Some a => ret a
  | None => raise RequestValidationError
  end.

(** A Pydantic [ValidationError] raised inside a handler is a
    [ValueError]. *)
Definition construct {A} (v : option A) : M A :=
  match v with
  | Some a => ret a
  | None => raise ValueError
  end.

(** ** Helper functions *)

Fixpoint find_todo (todo_id : UUID) (l : storage) : option ref :=
  match l with
  | [] => None
  | todo :: l' =>
      if decide (Todo.id todo = todo_id) then Some 0%nat
      else S <$> find_todo todo_id l'
  end.

(** [get_todo_by_id]: the first record with that id, or 404. *)
Definition get_todo_by_id (todo_id : UUID) : M ref :=
  s <~ get_storage ;;
  match find_todo todo_id s with
  | Some r => ret r
  | None => raise (TodoNotFoundError todo_id)
  end.

(** [list.remove(x)]: drops the first element equal to [x]; [None] stands
    for the [ValueError] raised when there is none. *)
Fixpoint list_remove (x : Todo.t) (l : storage) : option storage :=
  match l with
  | [] => None
  | y :: l' =>
      if decide (y = x) then Some l'
      else (y ::.) <$> list_remove x l'
  end.

(** [l[lo:hi]] for any two integers. *)
Definition slice_index (n i : Z) : Z :=
  if i <? 0 then Z.max 0 (i + n) else Z.min i n.

Definition py_slice {A} (l : list A) (lo hi : Z) : list A :=
  let n := Z.of_nat (length l) in
  take (Z.to_nat (slice_index n hi - slice_index n lo))
       (drop (Z.to_nat (slice_index n lo)) l).

(** ** API routes *)

(** [GET /todos]. The [Query] declarations bound [priority], [limit] and
    [skip]; the defaults [limit=10], [skip=0] are the caller's. *)
Definition query_ok (priority : option Z) (limit skip : Z) : bool :=
  match priority with Some p => int_range_ok 1 5 p | None => true end
  && int_range_ok 1 100 limit
  && (0 <=? skip).

Definition get_todos (completed : option bool) (priority : option Z)
    (limit skip : Z) : M (list Todo.t) :=
  parse (if query_ok priority limit skip then Some tt else None) ;;;
  todos_storage <~ get_storage ;;
  let filtered_todos := todos_storage in
  let filtered_todos :=
    match completed with
    | Some c => filter (λ todo, Todo.completed todo = Some c) filtered_todos
    | None => filtered_todos
    end in
  let filtered_todos :=
    match priority with
    | Some p => filter (λ todo, Todo.priority todo = Some p) filtered_todos
    | None => filtered_todos
    end in
  ret (py_slice filtered_todos skip (skip + limit)).

(** The f-string [f"priority_{priority}"]. *)
Definition priority_key (priority : Z) : string :=
  "priority_" +:+ pretty priority.

Definition count_priority (todos_storage : storage) (priority : Z) : Z :=
  Z.of_nat (length (filter (λ todo, Todo.priority todo = Some priority) todos_storage)).

(** [GET /todos/stats]. In the returned dict display the entries of
    [priority_stats] come last and so take precedence. *)
Definition get_todo_stats : M (gmap string Z) :=
  todos_storage <~ get_storage ;;
  let total := Z.of_nat (length todos_storage) in
  let completed :=
    Z.of_nat (length (filter (λ todo, truthy (Todo.completed todo)) todos_storage)) in
  let pending := total - completed in
  let priority_stats : gmap string Z :=
    foldl (λ d priority,
             <[priority_key priority := count_priority todos_storage priority]> d)
          ∅ (seqZ 1 5) in
  ret (priority_stats ∪
       <["pending_todos" := pending]>
         (<["completed_todos" := completed]>
            (<["total_todos" := total]> ∅))).

(** [GET /todos/{todo_id}]. *)
Definition get_todo (todo_id : UUID) : M Todo.t :=
  r <~ get_todo_by_id todo_id ;;
  deref r.

(** [POST /todos]. *)
Definition create_todo (body : payload) (uuid4 : UUID) (now : datetime) : M Todo.t :=
  todo <~ parse (TodoCreate.validate body) ;;
  new_todo <~ construct (Todo.init (TodoCreate.model_dump todo) uuid4 now) ;;
  todos_storage <~ get_storage ;;
  put_storage (todos_storage ++ [new_todo]) ;;;
  ret new_todo.

(** [PUT /todos/{todo_id}]. *)
Definition update_todo (todo_id : UUID) (body : payload) (now : datetime) : M Todo.t :=
  todo_update <~ parse (TodoUpdate.validate body) ;;
  existing_todo <~ get_todo_by_id todo_id ;;
  let update_data := model_dump_exclude_unset todo_update in
  foreach update_data (λ a, setattr existing_todo a) ;;;
  setattr existing_todo (SetUpdatedAt (Some now)) ;;;
  deref existing_todo.

(** [DELETE /todos/{todo_id}]. *)
Definition delete_todo (todo_id : UUID) : M unit :=
  r <~ get_todo_by_id todo_id ;;
  todo_to_delete <~ deref r ;;
  todos_storage <~ get_storage ;;
  match list_remove todo_to_delete todos_storage with
  | Some l => put_storage l
  | None => raise ValueError
  end.

(** [PATCH /todos/{todo_id}/toggle]. *)
Definition toggle_todo_completion (todo_id : UUID) (now : datetime) : M Todo.t :=
  r <~ get_todo_by_id todo_id ;;
  todo <~ deref r ;;
  setattr r (SetCompleted (Some (negb (truthy (Todo.completed todo))))) ;;;
  setattr r (SetUpdatedAt (Some now)) ;;;
  deref r.

(** [lifespan], before the first request: three sample records are built
    with the constructor [Todo] and appended to the storage. *)
Definition sample_todos (id1 id2 id3 : UUID) (t1 t2 t3 : datetime) :
    option (list Todo.t) :=
  a ← Todo.init
        (Payload (Given (py "Learn FastAPI"))
                 (Given (py "Complete the FastAPI tutorial and build a demo application"))
                 (Given 3) (Given false)) id1 t1;
  b ← Todo.init
        (Payload (Given (py "Write comprehensive tests"))
                 (Given (py "Implement unit and integration tests with pytest"))
                 (Given 4) (Given true)) id2 t2;
  c ← Todo.init
        (Payload (Given (py "Deploy to production"))
                 (Given (py "Set up CI/CD pipeline and deploy the application"))
                 (Given 5) (Given false)) id3 t3;
  Some [a; b; c].

Definition lifespan (id1 id2 id3 : UUID) (t1 t2 t3 : datetime) : M unit :=
  samples <~ construct (sample_todos id1 id2 id3 t1 t2 t3) ;;
  todos_storage <~ get_storage ;;
  put_storage (todos_storage ++ samples).

(** ** Requests *)

Inductive request :=
  | List (completed : option bool) (priority : option Z) (limit skip : Z)
  | Stats
  | Get (todo_id : UUID)
  | Create (body : payload) (uuid4 : UUID) (now : datetime)
  | Update (todo_id : UUID) (body : payload) (now : datetime)
  | Delete (todo_id : UUID)
  | Toggle (todo_id : UUID) (now : datetime).

Inductive response :=
  | Todos (l : list Todo.t)
  | Counts (d : gmap string Z)
  | One (todo : Todo.t)
  | NoContent.

Definition fmapM {A B} (f : A → B) (c : M A) : M B := a <~ c ;; ret (f a).

Definition handle (q : request) : M response :=
  match q with
  | List completed priority limit skip =>
      fmapM Todos (get_todos completed priority limit skip)
  | Stats => fmapM Counts get_todo_stats
  | Get todo_id => fmapM One (get_todo todo_id)
  | Create body uuid4 now => fmapM One (create_todo body uuid4 now)
  | Update todo_id body now => fmapM One (update_todo todo_id body now)
  | Delete todo_id => fmapM (λ _, NoContent) (delete_todo todo_id)
  | Toggle todo_id now => fmapM One (toggle_todo_completion todo_id now)
  end.

(** The storage after a request, and after a sequence of requests. *)
Definition step (s : storage) (q : request) : storage := (handle q s).2.

Definition run_from (s : storage) (qs : list request) : storage := foldl step s qs.

Definition run (qs : list request) : storage := run_from [] qs.

Definition reachable (s : storage) : Prop := ∃ qs, run qs = s.

Definition succeeds {A} (r : result A) : bool :=
  match r with Ok _ => true | Raise _ => false end.

(** ** History of a record

    Next to the storage, [run_tracked] keeps for every stored record the
    number of successful [Update] and [Toggle] requests that hit it since
    it was created. The storage itself is computed by [step] as before. *)

Definition track (s : storage) (g : list nat) (q : request) : list nat :=
  if succeeds (handle q s).1 then
    match q with
    | Create _ _ _ => g ++ [0%nat]
    | Update todo_id _ _ | Toggle todo_id _ =>
        match find_todo todo_id s with
        | Some r => alter S r g
        | None => g
        end
    | Delete todo_id =>
        match find_todo todo_id s with
        | Some r => delete r g
        | None => g
        end
    | List _ _ _ _ | Stats | Get _ => g
    end
  else g.

Definition step_tracked (st : storage * list nat) (q : request) : storage * list nat :=
  (step st.1 q, track st.1 st.2 q).

Definition run_tracked_from (s : storage) (qs : list request) : storage * list nat :=
  foldl step_tracked (s, replicate (length s) 0%nat) qs.

Definition run_tracked (qs : list request) : storage * list nat :=
  run_tracked_from [] qs.

(** Records that no request has modified yet, as [Create] or the startup
    code leave them. *)
Definition fresh (s : storage) : Prop :=
  Forall (λ todo, Todo.updated_at todo = None) s.

(** ** Predicates used in the statements *)

(** A title as the validators leave it: a string that is not empty and
    not made of whitespace only. *)
Definition title_ok (v : option pystr) : Prop :=
  ∃ s, v = Some s ∧ strip s ≠ [].

Definition priority_ok (v : option Z) : Prop :=
  ∃ p, v = Some p ∧ 1 ≤ p ≤ 5.

Definition well_formed (todo : Todo.t) : Prop :=
  title_ok (Todo.title todo) ∧ priority_ok (Todo.priority todo).

(** A record passes the [List] filter when it agrees with every filter
    field that was supplied. *)
Definition matches (completed : option bool) (priority : option Z)
    (todo : Todo.t) : Prop :=
  match completed with Some c => Todo.completed todo = Some c | None => True end ∧
  match priority with Some p => Todo.priority todo = Some p | None => True end.

#[global] Instance matches_dec completed priority todo :
  Decision (matches completed priority todo).
Proof. unfold matches. destruct completed, priority; apply _. Defined.

(** Acceptance of the single fields of a [Create] body. *)
Definition title_accepted (body : payload) : Prop :=
  is_Some (TodoCreate.validate_title (p_title body)).
Definition description_accepted (body : payload) : Prop :=
  is_Some (TodoCreate.validate_description (p_description body)).
Definition priority_accepted (body : payload) : Prop :=
  is_Some (TodoCreate.validate_priority (p_priority body)).
Definition completed_accepted (body : payload) : Prop :=
  is_Some (TodoCreate.validate_completed (p_completed body)).

(** Some stored record has priority [n]. *)
Definition has_priority (s : storage) (n : Z) : Prop :=
  ∃ todo, todo ∈ s ∧ Todo.priority todo = Some n.

(** The modification counts after a sequence of requests. *)
Definition modifications (qs : list request) : list nat := (run_tracked qs).2.

(** An update body that sets neither [title] nor [priority] to [null]. *)
Definition null_free (q : request) : Prop :=
  match q with
  | Update _ body _ => p_title body ≠ Null ∧ p_priority body ≠ Null
  | _ => True
  end.

(** The record that [update_todo] leaves behind: the assignments of the
    dumped update, in order, then [updated_at]. *)
Definition updated (u : TodoUpdate.t) (now : datetime) (o : Todo.t) : Todo.t :=
  Todo.setattr (foldl Todo.setattr o (model_dump_exclude_unset u))
               (SetUpdatedAt (Some now)).

(** The record that [toggle_todo_completion] leaves behind. *)
Definition toggled (now : datetime) (o : Todo.t) : Todo.t :=
  Todo.setattr
    (Todo.setattr o (SetCompleted (Some (negb (truthy (Todo.completed o))))))
    (SetUpdatedAt (Some now)).

(** ** Health check *)

Module HealthResponse.

Record t := Make {
  status : string;
  timestamp : datetime;
  version : string;
  total_todos : Z
}.

End HealthResponse.

(** [GET /health]: the defaults of [HealthResponse] and the size of the
    storage. *)
Definition health_check (now : datetime) : M HealthResponse.t :=
  todos_storage <~ get_storage ;;
  ret (HealthResponse.Make "healthy" now "1.0.0" (Z.of_nat (length todos_storage))).

(** ** The client ([examples/client_demo.py]) *)

(** The JSON body that [TodoClient.create_todo] posts: all four keys,
    [None] sent as [null]. *)
Definition TodoClient_create_todo_data (title : pystr) (description : option pystr)
    (priority : Z) (completed : bool) : payload :=
  Payload (Given title) (TodoUpdate.of_value description)
          (Given priority) (Given completed).

(** ** More predicates used in the statements *)

Definition ids (s : storage) : list UUID := Todo.id <$> s.

(** What identifies a record: its id and its creation time. *)
Definition identity (o : Todo.t) : UUID * datetime :=
  (Todo.id o, Todo.created_at o).

(** Every [Create] of the sequence draws an id that is not in the storage
    it is appended to, as [uuid4()] is meant to. *)
Fixpoint fresh_creates (s : storage) (qs : list request) : Prop :=
  match qs with
  | [] => True
  | q :: qs' =>
      match q with
      | Create _ uuid4 _ => uuid4 ∉ ids s
      | _ => True
      end ∧ fresh_creates (step s q) qs'
  end.

(** All of a string is whitespace. *)
Definition all_space (s : pystr) : Prop := Forall (λ c, isspace c = true) s.

(** The first and the last character of a string, if any, are not
    whitespace. *)
Definition trimmed (s : pystr) : Prop :=
  (∀ c, head s = Some c → isspace c = false) ∧
  (∀ c, last s = Some c → isspace c = false).

Ltac unfold_monad :=
  unfold fmapM, parse, construct in *;
  unfold bind, ret, raise, get_storage, put_storage in *;
  cbn beta iota in *.

(** ** Strings *)

Lemma lstrip_length s : (length (lstrip s) ≤ length s)%nat.
Proof. induction s as [|c s IH]; simpl; [lia|]. destruct (isspace c); simpl; lia. Qed.

Lemma lstrip_fixed_head c s : lstrip (c :: s) = c :: s → isspace c = false.
Proof.
  simpl. destruct (isspace c); [|done].
  intros E. pose proof (lstrip_length s) as H. rewrite E in H. simpl in H. lia.
Qed.

Lemma lstrip_idemp s : lstrip (lstrip s) = lstrip s.
Proof.
  induction s as [|c s IH]; simpl; [done|].
  destruct (isspace c) eqn:E; [done|]. simpl. by rewrite E.
Qed.

Lemma lstrip_snoc s c : isspace c = false → lstrip (s ++ [c]) = lstrip s ++ [c].
Proof.
  intros Hc. induction s as [|d s IH]; simpl; [by rewrite Hc|].
  by destruct (isspace d).
Qed.

Lemma rstrip_length s : (length (rstrip s) ≤ length s)%nat.
Proof.
  unfold rstrip. rewrite length_reverse.
  pose proof (lstrip_length (reverse s)) as H. by rewrite length_reverse in H.
Qed.

Lemma rstrip_idemp s : rstrip (rstrip s) = rstrip s.
Proof. unfold rstrip. by rewrite reverse_involutive, lstrip_idemp. Qed.

Lemma rstrip_cons c s : isspace c = false → rstrip (c :: s) = c :: rstrip s.
Proof.
  intros Hc. unfold rstrip.
  by rewrite reverse_cons, lstrip_snoc, reverse_app.
Qed.

Lemma lstrip_rstrip s : lstrip s = s → lstrip (rstrip s) = rstrip s.
Proof.
  destruct s as [|c s]; [done|]. intros E.
  pose proof (lstrip_fixed_head _ _ E) as Hc.
  rewrite rstrip_cons by done. simpl. by rewrite Hc.
Qed.

Lemma strip_length s : (length (strip s) ≤ length s)%nat.
Proof.
  unfold strip. pose proof (rstrip_length (lstrip s)). pose proof (lstrip_length s). lia.
Qed.

Lemma strip_idemp s : strip (strip s) = strip s.
Proof.
  unfold strip.
  rewrite (lstrip_rstrip (lstrip s)) by apply lstrip_idemp.
  apply rstrip_idemp.
Qed.

Lemma str_truthy_true s : str_truthy s = true ↔ s ≠ [].
Proof. by destruct s. Qed.

Lemma strip_nonempty s : strip s ≠ [] → s ≠ [].
Proof. intros H ->. by apply H. Qed.

Lemma encodable_lstrip s : encodable s = true → encodable (lstrip s) = true.
Proof.
  induction s as [|c s IH]; simpl; [done|].
  intros [Hc Hs]%andb_true_iff. destruct (isspace c); [by apply IH|].
  simpl. by rewrite Hc, Hs.
Qed.

Lemma encodable_reverse s : encodable (reverse s) = encodable s.
Proof.
  unfold encodable. induction s as [|c s IH]; [done|].
  rewrite reverse_cons, forallb_app, IH. simpl.
  rewrite andb_true_r. apply andb_comm.
Qed.

(** Stripping removes characters only, so it keeps a string encodable. *)
Lemma encodable_strip s : encodable s = true → encodable (strip s) = true.
Proof.
  intros H. unfold strip, rstrip. rewrite encodable_reverse.
  apply encodable_lstrip. rewrite encodable_reverse. by apply encodable_lstrip.
Qed.

(** ** Field constraints and model validation *)

Lemma str_length_ok_spec a b v :
  str_length_ok a b v = true ↔ a ≤ Z.of_nat (length v) ≤ b.
Proof. unfold str_length_ok. rewrite andb_true_iff, !Z.leb_le. tauto. Qed.

Lemma str_field_ok_spec a b v :
  str_field_ok a b v = true ↔ encodable v = true ∧ a ≤ Z.of_nat (length v) ≤ b.
Proof. unfold str_field_ok. by rewrite andb_true_iff, str_length_ok_spec. Qed.

Lemma int_range_ok_spec a b v : int_range_ok a b v = true ↔ a ≤ v ≤ b.
Proof. unfold int_range_ok. rewrite andb_true_iff, !Z.leb_le. tauto. Qed.

Lemma base_title_Some a t :
  TodoBase.validate_title a = Some t ↔
  ∃ v, a = Given v ∧ encodable v = true ∧ 1 ≤ Z.of_nat (length v) ≤ 200 ∧
       strip v ≠ [] ∧ t = strip v.
Proof.
  unfold TodoBase.validate_title, TodoBase.title_must_not_be_empty. split.
  - destruct a as [| |v]; [done..|].
    destruct (str_field_ok 1 200 v) eqn:Hl; [|done].
    destruct (str_truthy (strip v)) eqn:Ht; simpl; [|done].
    intros [= <-]. exists v. apply str_field_ok_spec in Hl as [He Hl].
    apply str_truthy_true in Ht. done.
  - intros (v & -> & He & Hl & Hne & ->).
    assert (str_field_ok 1 200 v = true) as -> by by apply str_field_ok_spec.
    apply str_truthy_true in Hne. by rewrite Hne.
Qed.

Lemma base_description_Some a d :
  TodoBase.validate_description a = Some d ↔
  match a with
  | Given v => encodable v = true ∧ Z.of_nat (length v) ≤ 1000 ∧ d = Some v
  | Null | Missing => d = None
  end.
Proof.
  unfold TodoBase.validate_description.
  destruct a as [| |v]; [split; congruence..|].
  destruct (str_field_ok 0 1000 v) eqn:Hl.
  - apply str_field_ok_spec in Hl as [He Hl].
    split; [intros [= <-]; split_and!; [done|lia|done]|].
    by intros (_ & _ & ->).
  - split; [done|]. intros (He & Hv & _).
    assert (str_field_ok 0 1000 v = true) by (apply str_field_ok_spec; split; [done|lia]).
    congruence.
Qed.

Lemma base_priority_Some a p :
  TodoBase.validate_priority a = Some p ↔
  match a with
  | Given v => 1 ≤ v ≤ 5 ∧ p = v
  | Null => False
  | Missing => p = 1
  end.
Proof.
  unfold TodoBase.validate_priority.
  destruct a as [| |v]; [split; congruence|done|].
  destruct (int_range_ok 1 5 v) eqn:Hr.
  - apply int_range_ok_spec in Hr. split; [intros [= <-]; done|by intros [_ ->]].
  - split; [done|]. intros [Hv _]. apply int_range_ok_spec in Hv. congruence.
Qed.

Lemma base_priority_range a p :
  TodoBase.validate_priority a = Some p → 1 ≤ p ≤ 5.
Proof.
  intros H%base_priority_Some. destruct a as [| |v]; [lia|done|].
  destruct H as [H ->]. done.
Qed.

(** What [validate] accepts, it accepts again unchanged after
    [model_dump]: the constructor [Todo] never rejects a validated
    [TodoCreate]. *)
Lemma base_validate_dump body b :
  TodoBase.validate body = Some b →
  TodoBase.validate (TodoBase.model_dump b) = Some b.
Proof.
  unfold TodoBase.validate. intros H.
  destruct (TodoBase.validate_title (p_title body)) as [t|] eqn:Ht; [|done].
  destruct (TodoBase.validate_description (p_description body)) as [d|] eqn:Hd; [|done].
  destruct (TodoBase.validate_priority (p_priority body)) as [p|] eqn:Hp; [|done].
  destruct (TodoBase.validate_completed (p_completed body)) as [c|] eqn:Hc; [|done].
  simpl in H. injection H as <-.
  unfold TodoBase.model_dump.
  cbn [p_title p_description p_priority p_completed TodoBase.title
       TodoBase.description TodoBase.priority TodoBase.completed].
  apply base_title_Some in Ht as (v & _ & He & Hl & Hne & ->).
  assert (TodoBase.validate_title (Given (strip v)) = Some (strip v)) as ->.
  { apply base_title_Some. exists (strip v).
    rewrite strip_idemp. split_and!; try done.
    - by apply encodable_strip.
    - destruct (strip v); [done|simpl; lia].
    - pose proof (strip_length v). lia. }
  assert (TodoBase.validate_description
            (match d with Some x => Given x | None => Null end) = Some d) as ->.
  { apply base_description_Some. apply base_description_Some in Hd.
    destruct d as [x|]; [|done].
    destruct (p_description body) as [| |w]; [done..|].
    destruct Hd as (? & ? & [= ->]). done. }
  apply base_priority_range in Hp.
  assert (TodoBase.validate_priority (Given p) = Some p) as ->.
  { by apply base_priority_Some. }
  done.
Qed.

(** ** Lookup by id and references *)

Lemma find_todo_lookup todo_id s r :
  find_todo todo_id s = Some r → ∃ o, s !! r = Some o ∧ Todo.id o = todo_id.
Proof.
  revert r. induction s as [|todo s IH]; intros r; simpl; [done|].
  case_decide as Hid.
  - intros [= <-]. by exists todo.
  - destruct (find_todo todo_id s) as [r'|]; [|done].
    intros [= <-]. by apply IH.
Qed.

Lemma find_todo_first todo_id s r j o :
  find_todo todo_id s = Some r → (j < r)%nat → s !! j = Some o →
  Todo.id o ≠ todo_id.
Proof.
  revert r j. induction s as [|todo s IH]; intros r j; simpl; [done|].
  case_decide as Hid; [intros [= <-]; lia|].
  destruct (find_todo todo_id s) as [r'|] eqn:E; [|done].
  intros [= <-] Hj. destruct j as [|j]; simpl.
  - by intros [= <-].
  - apply (IH r'); [done|lia].
Qed.

Lemma find_todo_None todo_id s :
  find_todo todo_id s = None ↔ ∀ o, o ∈ s → Todo.id o ≠ todo_id.
Proof.
  induction s as [|todo s IH]; simpl.
  - split; [|done]. intros _ o Ho. by apply elem_of_nil in Ho.
  - case_decide as Hid.
    + split; [done|]. intros H. destruct (H todo); [left|done].
    + destruct (find_todo todo_id s) as [r'|]; simpl.
      * split; [done|]. intros H.
        assert (Some r' = None) as Hn; [|done].
        apply IH. intros o Ho. apply H. by right.
      * split; [|done]. intros _ o [->|Ho]%elem_of_cons; [done|].
        by apply IH.
Qed.

Lemma find_todo_insert todo_id s r o o' :
  find_todo todo_id s = Some r → s !! r = Some o → Todo.id o' = Todo.id o →
  find_todo todo_id (<[r := o']> s) = Some r.
Proof.
  revert r. induction s as [|todo s IH]; intros r; simpl; [done|].
  case_decide as Hid.
  - intros [= <-] [= <-] Hid'. simpl. rewrite Hid'. by rewrite decide_True.
  - destruct (find_todo todo_id s) as [r'|] eqn:E; [|done].
    intros [= <-] Hl Hid'. specialize (IH r' eq_refl Hl Hid').
    simpl in *. rewrite decide_False by done. by rewrite IH.
Qed.

(** [list.remove] on the record found by id drops exactly that position. *)
Lemma list_remove_found todo_id s r o :
  find_todo todo_id s = Some r → s !! r = Some o →
  list_remove o s = Some (delete r s).
Proof.
  revert r. induction s as [|todo s IH]; intros r; simpl; [done|].
  case_decide as Hid.
  - intros [= <-] [= <-]. simpl. by rewrite decide_True.
  - destruct (find_todo todo_id s) as [r'|] eqn:E; [|done].
    intros [= <-] Hl. simpl in Hl.
    destruct (find_todo_lookup _ _ _ E) as (o' & Ho' & Hido').
    assert (o' = o) as -> by congruence.
    rewrite decide_False by congruence.
    by rewrite (IH r').
Qed.

Lemma deref_run s r o : s !! r = Some o → deref r s = (Ok o, s).
Proof. intros H. unfold deref. unfold_monad. by rewrite H. Qed.

Lemma setattr_run s r o a :
  s !! r = Some o → setattr r a s = (Ok tt, <[r := Todo.setattr o a]> s).
Proof. intros H. unfold setattr, deref. unfold_monad. by rewrite H. Qed.

Lemma foreach_setattr_run l s r o :
  s !! r = Some o →
  foreach l (setattr r) s = (Ok tt, <[r := foldl Todo.setattr o l]> s).
Proof.
  revert s o. induction l as [|a l IH]; intros s o H; simpl.
  - unfold_monad. by rewrite list_insert_id.
  - unfold bind at 1. rewrite (setattr_run _ _ _ _ H).
    rewrite (IH _ (Todo.setattr o a)).
    + by rewrite list_insert_insert_eq.
    + apply list_lookup_insert_eq. by eapply lookup_lt_Some.
Qed.

(** ** What every handler computes *)

Lemma get_todo_by_id_run todo_id s :
  get_todo_by_id todo_id s =
  match find_todo todo_id s with
  | Some r => (Ok r, s)
  | None => (Raise (TodoNotFoundError todo_id), s)
  end.
Proof. unfold get_todo_by_id. unfold_monad. by destruct (find_todo todo_id s). Qed.

Lemma get_todo_run todo_id s :
  get_todo todo_id s =
  match find_todo todo_id s with
  | Some r => (from_option Ok (Raise IndexError) (s !! r), s)
  | None => (Raise (TodoNotFoundError todo_id), s)
  end.
Proof.
  unfold get_todo, bind at 1. rewrite get_todo_by_id_run.
  destruct (find_todo todo_id s) as [r|] eqn:E; [|done].
  destruct (find_todo_lookup _ _ _ E) as (o & Ho & _).
  by rewrite (deref_run _ _ _ Ho), Ho.
Qed.

Lemma create_todo_run body uuid4 now s :
  create_todo body uuid4 now s =
  match TodoCreate.validate body with
  | Some b =>
      let new_todo :=
        Todo.Make uuid4 (Some (TodoBase.title b)) (TodoBase.description b)
                  (Some (TodoBase.priority b)) (Some (TodoBase.completed b))
                  now None in
      (Ok new_todo, s ++ [new_todo])
  | None => (Raise RequestValidationError, s)
  end.
Proof.
  unfold create_todo. unfold_monad.
  destruct (TodoCreate.validate body) as [b|] eqn:E; [|done].
  unfold Todo.init. by rewrite (base_validate_dump _ _ E).
Qed.

Lemma update_todo_run todo_id body now s :
  update_todo todo_id body now s =
  match TodoUpdate.validate body with
  | Some u =>
      match find_todo todo_id s with
      | Some r =>
          match s !! r with
          | Some o => (Ok (updated u now o), <[r := updated u now o]> s)
          | None => (Raise IndexError, s)
          end
      | None => (Raise (TodoNotFoundError todo_id), s)
      end
  | None => (Raise RequestValidationError, s)
  end.
Proof.
  unfold update_todo, bind at 1, parse.
  destruct (TodoUpdate.validate body) as [u|]; [|done].
  unfold ret at 1, bind at 1. rewrite get_todo_by_id_run.
  destruct (find_todo todo_id s) as [r|] eqn:E; [|done].
  destruct (find_todo_lookup _ _ _ E) as (o & Ho & _). rewrite Ho.
  unfold bind at 1. rewrite (foreach_setattr_run _ _ _ _ Ho).
  assert (r < length s)%nat as Hr by by eapply lookup_lt_Some.
  unfold bind at 1. erewrite setattr_run by by apply list_lookup_insert_eq.
  rewrite list_insert_insert_eq.
  by erewrite deref_run by by apply list_lookup_insert_eq.
Qed.

Lemma toggle_todo_completion_run todo_id now s :
  toggle_todo_completion todo_id now s =
  match find_todo todo_id s with
  | Some r =>
      match s !! r with
      | Some o => (Ok (toggled now o), <[r := toggled now o]> s)
      | None => (Raise IndexError, s)
      end
  | None => (Raise (TodoNotFoundError todo_id), s)
  end.
Proof.
  unfold toggle_todo_completion, bind at 1. rewrite get_todo_by_id_run.
  destruct (find_todo todo_id s) as [r|] eqn:E; [|done].
  destruct (find_todo_lookup _ _ _ E) as (o & Ho & _). rewrite Ho.
  assert (r < length s)%nat as Hr by by eapply lookup_lt_Some.
  unfold bind at 1. rewrite (deref_run _ _ _ Ho).
  unfold bind at 1. rewrite (setattr_run _ _ _ _ Ho).
  unfold bind at 1. erewrite setattr_run by by apply list_lookup_insert_eq.
  rewrite list_insert_insert_eq.
  by erewrite deref_run by by apply list_lookup_insert_eq.
Qed.

Lemma delete_todo_run todo_id s :
  delete_todo todo_id s =
  match find_todo todo_id s with
  | Some r => (Ok tt, delete r s)
  | None => (Raise (TodoNotFoundError todo_id), s)
  end.
Proof.
  unfold delete_todo, bind at 1. rewrite get_todo_by_id_run.
  destruct (find_todo todo_id s) as [r|] eqn:E; [|done].
  destruct (find_todo_lookup _ _ _ E) as (o & Ho & _).
  unfold bind at 1. rewrite (deref_run _ _ _ Ho).
  unfold_monad. by rewrite (list_remove_found _ _ _ _ E Ho).
Qed.

Lemma filter_all {A} (P : A → Prop) `{!∀ x, Decision (P x)} (l : list A) :
  (∀ x, P x) → filter P l = l.
Proof.
  intros HP. induction l as [|x l IH]; [done|].
  rewrite filter_cons_True by done. by rewrite IH.
Qed.

Lemma get_todos_run completed priority limit skip s :
  get_todos completed priority limit skip s =
  if query_ok priority limit skip
  then (Ok (py_slice (filter (matches completed priority) s) skip (skip + limit)), s)
  else (Raise RequestValidationError, s).
Proof.
  unfold get_todos. unfold_monad.
  destruct (query_ok priority limit skip); [|done].
  do 2 f_equal. f_equal. unfold matches.
  destruct completed as [c|], priority as [p|]; simpl.
  - rewrite list_filter_filter. apply list_filter_iff. tauto.
  - apply list_filter_iff. tauto.
  - apply list_filter_iff. tauto.
  - symmetry. apply filter_all. tauto.
Qed.

Lemma updated_fields u now o :
  updated u now o =
  Todo.Make (Todo.id o)
    (match TodoUpdate.title u with
     | Missing => Todo.title o | Null => None | Given v => Some v end)
    (match TodoUpdate.description u with
     | Missing => Todo.description o | Null => None | Given v => Some v end)
    (match TodoUpdate.priority u with
     | Missing => Todo.priority o | Null => None | Given v => Some v end)
    (match TodoUpdate.completed u with
     | Missing => Todo.completed o | Null => None | Given v => Some v end)
    (Todo.created_at o) (Some now).
Proof. destruct u as [[] [] [] []], o; reflexivity. Qed.

(** A body that [TodoUpdate] accepts is kept field by field; only a
    supplied title is replaced by its stripped form. *)
Lemma update_validate_Some body u :
  TodoUpdate.validate body = Some u →
  TodoUpdate.title u =
    match p_title body with
    | Given v => Given (strip v) | Null => Null | Missing => Missing end ∧
  TodoUpdate.description u = p_description body ∧
  TodoUpdate.priority u = p_priority body ∧
  TodoUpdate.completed u = p_completed body ∧
  (∀ v, p_title body = Given v →
        1 ≤ Z.of_nat (length v) ≤ 200 ∧ strip v ≠ []) ∧
  (∀ v, p_priority body = Given v → 1 ≤ v ≤ 5).
Proof.
  unfold TodoUpdate.validate. intros H.
  destruct (TodoUpdate.validate_title (p_title body)) as [t|] eqn:Ht; [|done].
  destruct (TodoUpdate.validate_description (p_description body)) as [d|] eqn:Hd; [|done].
  destruct (TodoUpdate.validate_priority (p_priority body)) as [p|] eqn:Hp; [|done].
  simpl in H. injection H as <-. simpl.
  unfold TodoUpdate.validate_title, TodoUpdate.title_must_not_be_empty in Ht.
  unfold TodoUpdate.validate_description in Hd.
  unfold TodoUpdate.validate_priority in Hp.
  split_and!.
  - destruct (p_title body) as [| |v]; simpl in Ht; [congruence..|].
    destruct (str_field_ok 1 200 v); [|done].
    destruct (str_truthy (strip v)) eqn:Hs; [|done].
    apply str_truthy_true, strip_nonempty, str_truthy_true in Hs.
    rewrite Hs in Ht. simpl in Ht. congruence.
  - destruct (p_description body) as [| |v]; [congruence..|].
    destruct (str_field_ok 0 1000 v); congruence.
  - destruct (p_priority body) as [| |v]; [congruence..|].
    destruct (int_range_ok 1 5 v); congruence.
  - done.
  - intros v Hv. rewrite Hv in Ht.
    destruct (str_field_ok 1 200 v) eqn:Hl; [|done].
    destruct (str_truthy (strip v)) eqn:Hs; [|done].
    apply str_field_ok_spec in Hl as [_ Hl]. by apply str_truthy_true in Hs.
  - intros v Hv. rewrite Hv in Hp.
    destruct (int_range_ok 1 5 v) eqn:Hr; [|done].
    by apply int_range_ok_spec in Hr.
Qed.

(** A failing handler has not touched the storage. *)
Lemma handle_raise_storage q s e :
  (handle q s).1 = Raise e → (handle q s).2 = s.
Proof.
  destruct q as [completed priority limit skip| |todo_id|body uuid4 now
                |todo_id body now|todo_id|todo_id now];
    unfold handle; unfold_monad.
  - rewrite get_todos_run. destruct (query_ok priority limit skip); simpl; done.
  - done.
  - rewrite get_todo_run.
    destruct (find_todo todo_id s) as [r|]; simpl; [|done].
    by destruct (s !! r); simpl.
  - rewrite create_todo_run. by destruct (TodoCreate.validate body); simpl.
  - rewrite update_todo_run.
    destruct (TodoUpdate.validate body); simpl; [|done].
    destruct (find_todo todo_id s) as [r|]; simpl; [|done].
    by destruct (s !! r); simpl.
  - rewrite delete_todo_run. by destruct (find_todo todo_id s); simpl.
  - rewrite toggle_todo_completion_run.
    destruct (find_todo todo_id s) as [r|]; simpl; [|done].
    by destruct (s !! r); simpl.
Qed.

(** ** Create *)

Lemma create_todo_accepts body uuid4 now s :
  title_accepted body → description_accepted body →
  priority_accepted body → completed_accepted body →
  ∃ new_todo,
    create_todo body uuid4 now s = (Ok new_todo, s ++ [new_todo]) ∧
    Some (Todo.title new_todo) = Some <$> TodoCreate.validate_title (p_title body) ∧
    Some (Todo.priority new_todo) = Some <$> TodoCreate.validate_priority (p_priority body).
Proof.
  intros [t Ht] [d Hd] [p Hp] [c Hc]. rewrite create_todo_run.
  unfold TodoCreate.validate. rewrite Ht, Hd, Hp, Hc. simpl. eauto.
Qed.

Lemma create_todo_rejects body uuid4 now s :
  ¬ title_accepted body ∨ ¬ priority_accepted body →
  create_todo body uuid4 now s = (Raise RequestValidationError, s).
Proof.
  intros H. rewrite create_todo_run. unfold TodoCreate.validate.
  destruct (TodoBase.validate_title (p_title body)) as [t|] eqn:Ht; [|done].
  destruct (TodoBase.validate_description (p_description body)) as [d|]; [|done].
  destruct (TodoBase.validate_priority (p_priority body)) as [p|] eqn:Hp; [|done].
  destruct H as [H|H]; destruct H.
  - unfold title_accepted. by rewrite Ht.
  - unfold priority_accepted. by rewrite Hp.
Qed.

(** C7. [Create] accepts a title of exactly 200 characters and rejects one
    of 201 characters with a validation error; it rejects the priorities 0
    and 6 and accepts the priorities 1 and 5. Acceptance is that of the
    field in question: the other fields of the body are taken to be
    acceptable, and the 200 characters to be encodable text (no lone
    surrogate) that is not whitespace only. *)
Theorem create_todo_boundaries body uuid4 now s :
  (∀ v, p_title body = Given v → length v = 200%nat → strip v ≠ [] →
        encodable v = true →
        description_accepted body → priority_accepted body →
        completed_accepted body →
        ∃ new_todo, create_todo body uuid4 now s = (Ok new_todo, s ++ [new_todo])) ∧
  (∀ v, p_title body = Given v → length v = 201%nat →
        create_todo body uuid4 now s = (Raise RequestValidationError, s)) ∧
  (p_priority body = Given 0 ∨ p_priority body = Given 6 →
   create_todo body uuid4 now s = (Raise RequestValidationError, s)) ∧
  (∀ p, p_priority body = Given p → p = 1 ∨ p = 5 →
        title_accepted body → description_accepted body →
        completed_accepted body →
        ∃ new_todo,
          create_todo body uuid4 now s = (Ok new_todo, s ++ [new_todo]) ∧
          Todo.priority new_todo = Some p).
Proof.
  split_and!.
  - intros v Hv Hlen Hne He Hd Hp Hc.
    destruct (create_todo_accepts body uuid4 now s) as (new_todo & Hrun & _);
      [|done..|by exists new_todo].
    exists (strip v). rewrite Hv. apply base_title_Some.
    exists v. split_and!; try done; lia.
  - intros v Hv Hlen. apply create_todo_rejects. left.
    intros [t Ht]. rewrite Hv in Ht.
    apply base_title_Some in Ht as (w & [= <-] & _ & Hl & _). lia.
  - intros H. apply create_todo_rejects. right.
    intros [p Hp]. apply base_priority_Some in Hp.
    destruct H as [H|H]; rewrite H in Hp; lia.
  - intros p Hp Hrange Ht Hd Hc.
    assert (TodoCreate.validate_priority (p_priority body) = Some p) as Hv.
    { rewrite Hp. apply base_priority_Some. lia. }
    destruct (create_todo_accepts body uuid4 now s) as (new_todo & Hrun & _ & Hpr);
      [done|done|by exists p|done|].
    exists new_todo. split; [done|]. rewrite Hv in Hpr. simpl in Hpr. congruence.
Qed.

Lemma create_todo_boundaries_witness :
  (∃ new_todo,
     create_todo (Payload (Given (replicate 200 120%N)) Missing Missing Missing)
                 1%N 0 [] = (Ok new_todo, [new_todo])) ∧
  create_todo (Payload (Given (replicate 201 120%N)) Missing Missing Missing)
              1%N 0 [] = (Raise RequestValidationError, []) ∧
  create_todo (Payload (Given (py "Test")) Missing (Given 0) Missing)
              1%N 0 [] = (Raise RequestValidationError, []) ∧
  create_todo (Payload (Given (py "Test")) Missing (Given 6) Missing)
              1%N 0 [] = (Raise RequestValidationError, []) ∧
  (∃ new_todo,
     create_todo (Payload (Given (py "Test")) Missing (Given 1) Missing)
                 1%N 0 [] = (Ok new_todo, [new_todo]) ∧
     Todo.priority new_todo = Some 1) ∧
  (∃ new_todo,
     create_todo (Payload (Given (py "Test")) Missing (Given 5) Missing)
                 1%N 0 [] = (Ok new_todo, [new_todo]) ∧
     Todo.priority new_todo = Some 5).
Proof.
  split_and!.
  - apply (proj1 (create_todo_boundaries
                    (Payload (Given (replicate 200 120%N)) Missing Missing Missing)
                    1%N 0 []) (replicate 200 120%N)).
    + reflexivity.
    + reflexivity.
    + vm_compute. discriminate.
    + reflexivity.
    + vm_compute. eexists. reflexivity.
    + vm_compute. eexists. reflexivity.
    + vm_compute. eexists. reflexivity.
  - apply (proj1 (proj2 (create_todo_boundaries
                    (Payload (Given (replicate 201 120%N)) Missing Missing Missing)
                    1%N 0 [])) (replicate 201 120%N)); reflexivity.
  - apply (proj1 (proj2 (proj2 (create_todo_boundaries
                    (Payload (Given (py "Test")) Missing (Given 0) Missing)
                    1%N 0 [])))). left. reflexivity.
  - apply (proj1 (proj2 (proj2 (create_todo_boundaries
                    (Payload (Given (py "Test")) Missing (Given 6) Missing)
                    1%N 0 [])))). right. reflexivity.
  - apply (proj2 (proj2 (proj2 (create_todo_boundaries
                    (Payload (Given (py "Test")) Missing (Given 1) Missing)
                    1%N 0 []))) 1).
    + reflexivity.
    + left. reflexivity.
    + vm_compute. eexists. reflexivity.
    + vm_compute. eexists. reflexivity.
    + vm_compute. eexists. reflexivity.
  - apply (proj2 (proj2 (proj2 (create_todo_boundaries
                    (Payload (Given (py "Test")) Missing (Given 5) Missing)
                    1%N 0 []))) 5).
    + reflexivity.
    + right. reflexivity.
    + vm_compute. eexists. reflexivity.
    + vm_compute. eexists. reflexivity.
    + vm_compute. eexists. reflexivity.
Defined.

(** C10. For a [Create] body whose title is not blank after trimming, the
    record that [Create] returns is the one it appends to the storage, and
    its title is the input title with leading and trailing whitespace
    removed; such a record is produced whenever the title is encodable
    text (no lone surrogate) of at most 200 characters and the other
    fields are acceptable. *)
Theorem create_todo_trims_title body v uuid4 now s :
  p_title body = Given v → strip v ≠ [] →
  (∀ new_todo s',
     create_todo body uuid4 now s = (Ok new_todo, s') →
     Todo.title new_todo = Some (strip v) ∧
     s' = s ++ [new_todo] ∧ last s' = Some new_todo) ∧
  (encodable v = true → Z.of_nat (length v) ≤ 200 →
   description_accepted body → priority_accepted body →
   completed_accepted body →
   ∃ new_todo,
     create_todo body uuid4 now s = (Ok new_todo, s ++ [new_todo]) ∧
     Todo.title new_todo = Some (strip v)).
Proof.
  intros Hv Hne.
  assert (∀ new_todo s',
            create_todo body uuid4 now s = (Ok new_todo, s') →
            Todo.title new_todo = Some (strip v) ∧
            s' = s ++ [new_todo] ∧ last s' = Some new_todo) as Hpart.
  { intros new_todo s'. rewrite create_todo_run.
    destruct (TodoCreate.validate body) as [b|] eqn:E; [|done].
    cbv zeta. intros [= <- <-]. rewrite last_snoc. split; [|done]. simpl.
    unfold TodoCreate.validate in E.
    destruct (TodoBase.validate_title (p_title body)) as [t|] eqn:Ht; [|done].
    rewrite Hv in Ht.
    apply base_title_Some in Ht as (w & [= <-] & _ & _ & _ & ->).
    destruct (TodoBase.validate_description (p_description body)); [|done].
    destruct (TodoBase.validate_priority (p_priority body)); [|done].
    destruct (TodoBase.validate_completed (p_completed body)); [|done].
    simpl in E. by injection E as <-. }
  split; [done|]. intros He Hlen Hd Hp Hc.
  destruct (create_todo_accepts body uuid4 now s) as (new_todo & Hrun & _);
    [|done..|].
  - exists (strip v). rewrite Hv. apply base_title_Some. exists v.
    split_and!; try done. apply strip_nonempty in Hne.
    destruct v; [done|simpl; lia].
  - exists new_todo. split; [done|]. by apply (Hpart _ _ Hrun).
Qed.

Lemma create_todo_trims_title_witness :
  ∃ new_todo,
    create_todo (Payload (Given (py "  Buy milk ")) Missing Missing Missing) 1%N 0 []
    = (Ok new_todo, [new_todo]) ∧
    Todo.title new_todo = Some (py "Buy milk").
Proof.
  apply (proj2 (create_todo_trims_title
                  (Payload (Given (py "  Buy milk ")) Missing Missing Missing)
                  (py "  Buy milk ") 1%N 0 [] eq_refl
                  ltac:(vm_compute; discriminate))).
  - reflexivity.
  - vm_compute. discriminate.
  - vm_compute. eexists. reflexivity.
  - vm_compute. eexists. reflexivity.
  - vm_compute. eexists. reflexivity.
Defined.

(** ** Update *)

(** C3. A successful [Update] rewrites one stored record in place. Every
    field the body omits keeps its value, every field the body carries
    takes the supplied value (a title its stripped form), [id] and
    [created_at] are kept, and [updated_at] becomes the current time, also
    when the supplied values are the ones already stored. No other record
    of the storage changes. *)
Theorem update_todo_frame todo_id body now s new_todo s' :
  update_todo todo_id body now s = (Ok new_todo, s') →
  ∃ r old,
    find_todo todo_id s = Some r ∧ s !! r = Some old ∧ s' = <[r := new_todo]> s ∧
    (p_title body = Missing → Todo.title new_todo = Todo.title old) ∧
    (p_description body = Missing → Todo.description new_todo = Todo.description old) ∧
    (p_priority body = Missing → Todo.priority new_todo = Todo.priority old) ∧
    (p_completed body = Missing → Todo.completed new_todo = Todo.completed old) ∧
    Todo.title new_todo =
      match p_title body with
      | Missing => Todo.title old | Null => None | Given v => Some (strip v) end ∧
    Todo.description new_todo =
      match p_description body with
      | Missing => Todo.description old | Null => None | Given v => Some v end ∧
    Todo.priority new_todo =
      match p_priority body with
      | Missing => Todo.priority old | Null => None | Given v => Some v end ∧
    Todo.completed new_todo =
      match p_completed body with
      | Missing => Todo.completed old | Null => None | Given v => Some v end ∧
    Todo.id new_todo = Todo.id old ∧
    Todo.created_at new_todo = Todo.created_at old ∧
    Todo.updated_at new_todo = Some now.
Proof.
  rewrite update_todo_run.
  destruct (TodoUpdate.validate body) as [u|] eqn:Hu; [|done].
  destruct (find_todo todo_id s) as [r|] eqn:Hr; [|done].
  destruct (s !! r) as [old|] eqn:Hold; [|done].
  intros [= <- <-]. exists r, old.
  apply update_validate_Some in Hu as (Ht & Hd & Hp & Hc & _).
  rewrite updated_fields. simpl. rewrite Ht, Hd, Hp, Hc.
  split_and!; try done.
  - by intros ->.
  - by intros ->.
  - by intros ->.
  - by intros ->.
  - by destruct (p_title body).
Qed.

Lemma update_todo_frame_witness :
  let old := Todo.Make 1%N (Some (py "A")) None (Some 5) (Some false) 0 None in
  let new_todo := Todo.Make 1%N (Some (py "A")) None (Some 5) (Some true) 0 (Some 7) in
  update_todo 1%N (Payload (Given (py " A ")) Missing Missing (Given true)) 7 [old]
  = (Ok new_todo, [new_todo]) ∧
  Todo.priority new_todo = Todo.priority old ∧
  Todo.updated_at new_todo = Some 7.
Proof.
  intros old new_todo. split; [reflexivity|].
  destruct (update_todo_frame 1%N
              (Payload (Given (py " A ")) Missing Missing (Given true)) 7
              [old] new_todo [new_todo] eq_refl)
    as (r & o & Hr & Ho & _ & _ & _ & Hp & _ & _ & _ & _ & _ & _ & _ & Hu).
  injection Hr as <-. injection Ho as <-.
  split; [apply Hp; reflexivity | exact Hu].
Defined.

(** ** Failures *)

(** C8. Whatever the request and its input, a request that fails (with a
    validation error, with not-found, or with any other exception) leaves
    the storage as it was before the request. *)
Theorem failed_request_leaves_storage q s e :
  (handle q s).1 = Raise e → (handle q s).2 = s.
Proof. apply handle_raise_storage. Qed.

Lemma failed_request_leaves_storage_witness :
  let s := [Todo.Make 1%N (Some (py "A")) None (Some 5) (Some false) 0 None] in
  (handle (Update 1%N (Payload (Given (py "B")) Missing (Given 9) Missing) 7) s).1
  = Raise RequestValidationError ∧
  (handle (Update 1%N (Payload (Given (py "B")) Missing (Given 9) Missing) 7) s).2 = s.
Proof.
  intros s. split; [reflexivity|].
  apply (failed_request_leaves_storage
           (Update 1%N (Payload (Given (py "B")) Missing (Given 9) Missing) 7)
           s RequestValidationError).
  reflexivity.
Defined.

(** ** Toggle *)

Lemma toggled_fields now o :
  toggled now o =
  Todo.Make (Todo.id o) (Todo.title o) (Todo.description o) (Todo.priority o)
            (Some (negb (truthy (Todo.completed o)))) (Todo.created_at o)
            (Some now).
Proof. by destruct o. Qed.

(** Two toggles in a row leave the truth value of [completed] behind; for
    a record that holds a boolean this is the value it started with. *)
Lemma toggle_twice todo_id now1 now2 s r o :
  find_todo todo_id s = Some r → s !! r = Some o →
  ∃ o1 o2 s1 s2,
    toggle_todo_completion todo_id now1 s = (Ok o1, s1) ∧
    toggle_todo_completion todo_id now2 s1 = (Ok o2, s2) ∧
    find_todo todo_id s2 = Some r ∧ s2 !! r = Some o2 ∧
    Todo.completed o2 = Some (truthy (Todo.completed o)).
Proof.
  intros Hr Ho.
  assert (r < length s)%nat as Hlt by by eapply lookup_lt_Some.
  exists (toggled now1 o), (toggled now2 (toggled now1 o)),
         (<[r := toggled now1 o]> s),
         (<[r := toggled now2 (toggled now1 o)]> s).
  assert (find_todo todo_id (<[r := toggled now1 o]> s) = Some r) as Hr1.
  { eapply find_todo_insert; [done..|]. by rewrite toggled_fields. }
  assert (<[r := toggled now1 o]> s !! r = Some (toggled now1 o)) as Ho1.
  { by apply list_lookup_insert_eq. }
  split_and!.
  - by rewrite toggle_todo_completion_run, Hr, Ho.
  - rewrite toggle_todo_completion_run, Hr1, Ho1.
    by rewrite list_insert_insert_eq.
  - eapply find_todo_insert; [done..|]. by rewrite !toggled_fields.
  - by apply list_lookup_insert_eq.
  - rewrite !toggled_fields. simpl. by rewrite negb_involutive.
Qed.

Lemma toggle_twice_bool todo_id now1 now2 s r o b :
  find_todo todo_id s = Some r → s !! r = Some o →
  Todo.completed o = Some b →
  ∃ o1 o2 s1 s2,
    toggle_todo_completion todo_id now1 s = (Ok o1, s1) ∧
    toggle_todo_completion todo_id now2 s1 = (Ok o2, s2) ∧
    s2 !! r = Some o2 ∧ Todo.completed o2 = Todo.completed o.
Proof.
  intros Hr Ho Hb.
  destruct (toggle_twice todo_id now1 now2 s r o Hr Ho)
    as (o1 & o2 & s1 & s2 & H1 & H2 & _ & Hl & Hc).
  exists o1, o2, s1, s2. rewrite Hc, Hb. done.
Qed.

(** C5. A record created through the API and then updated with the body
    [{"completed": null}] holds [None] in [completed]; two toggles in a
    row leave [False] there, not the value the field had before the first
    toggle. *)
Theorem toggle_twice_after_null_completed :
  let s0 :=
    run [Create (Payload (Given (py "A")) Missing (Given 5) Missing) 1%N 0;
         Update 1%N (Payload Missing Missing Missing Null) 1] in
  let s2 := step (step s0 (Toggle 1%N 2)) (Toggle 1%N 3) in
  Todo.completed <$> s0 !! 0%nat = Some None ∧
  Todo.completed <$> s2 !! 0%nat = Some (Some false).
Proof. split; reflexivity. Qed.

(** ** Stats *)

Lemma count_priority_zero s n : count_priority s n = 0 ↔ ¬ has_priority s n.
Proof.
  unfold count_priority, has_priority.
  induction s as [|todo s IH].
  - split; [|done]. intros _ (todo & Hin & _). by apply elem_of_nil in Hin.
  - rewrite filter_cons. case_decide as Hp; simpl.
    + split; [lia|]. intros H. destruct H. exists todo. split; [left|done].
    + rewrite IH. split.
      * intros H (o & [->|Hin]%elem_of_cons & Ho); [done|].
        apply H. by exists o.
      * intros H (o & Hin & Ho). apply H. exists o. split; [by right|done].
Qed.

(** C1. [Stats] reports every priority level from 1 to 5, whatever the
    storage: the key [priority_N] is always present and holds the number
    of stored records of priority N, which is 0 exactly when no stored
    record has that priority. *)
Theorem stats_priority_breakdown s n :
  1 ≤ n ≤ 5 →
  ∃ d, get_todo_stats s = (Ok d, s) ∧
       d !! priority_key n = Some (count_priority s n) ∧
       (count_priority s n = 0 ↔ ¬ has_priority s n).
Proof.
  intros Hn. unfold get_todo_stats. unfold_monad.
  eexists. split; [reflexivity|]. split; [|apply count_priority_zero].
  assert (n = 1 ∨ n = 2 ∨ n = 3 ∨ n = 4 ∨ n = 5) as Hcases by lia.
  destruct Hcases as [->|[->|[->|[->| ->]]]]; reflexivity.
Qed.

Lemma stats_priority_breakdown_witness :
  ∃ d, get_todo_stats [] = (Ok d, []) ∧
       d !! priority_key 1 = Some (count_priority [] 1) ∧
       (count_priority [] 1 = 0 ↔ ¬ has_priority [] 1).
Proof. apply (stats_priority_breakdown [] 1). lia. Defined.

(** The claim that a zero-count level contributes no key fails on the
    empty storage, where [priority_1] is present with value 0. *)
Lemma stats_zero_count_key_present :
  ¬ (∀ s d n, get_todo_stats s = (Ok d, s) → 1 ≤ n ≤ 5 →
              (is_Some (d !! priority_key n) ↔ has_priority s n)).
Proof.
  intros H.
  destruct (H [] _ 1 eq_refl ltac:(lia)) as [Hkey _].
  destruct Hkey as (todo & Hin & _).
  - exists 0. reflexivity.
  - by apply elem_of_nil in Hin.
Qed.

(** C6. [Stats] never fails and leaves the storage alone; its
    [total_todos] is the sum of [completed_todos] and [pending_todos] and
    is the number of stored records. *)
Theorem stats_totals s :
  ∃ d total completed pending,
    get_todo_stats s = (Ok d, s) ∧
    d !! "total_todos" = Some total ∧
    d !! "completed_todos" = Some completed ∧
    d !! "pending_todos" = Some pending ∧
    total = completed + pending ∧
    total = Z.of_nat (length s) ∧
    completed = Z.of_nat (length (filter (λ todo, truthy (Todo.completed todo)) s)) ∧
    0 ≤ pending.
Proof.
  unfold get_todo_stats. unfold_monad.
  eexists _, _, _, _. split; [reflexivity|].
  split_and!; [reflexivity..| |reflexivity|reflexivity|]; [lia|].
  pose proof (length_filter (λ todo, truthy (Todo.completed todo)) s). lia.
Qed.

(** ** List *)

Lemma py_slice_page {A} (l : list A) (limit skip : Z) :
  0 ≤ limit → 0 ≤ skip →
  py_slice l skip (skip + limit) = take (Z.to_nat limit) (drop (Z.to_nat skip) l).
Proof.
  intros Hl Hs. unfold py_slice, slice_index.
  destruct (Z.ltb_spec skip 0) as [?|_]; [lia|].
  destruct (Z.ltb_spec (skip + limit) 0) as [?|_]; [lia|].
  destruct (Z.le_gt_cases (Z.of_nat (length l)) skip) as [Hge|Hlt].
  - rewrite !drop_ge by lia. by rewrite !take_nil.
  - replace (Z.to_nat (Z.min skip (Z.of_nat (length l)))) with (Z.to_nat skip) by lia.
    replace (Z.to_nat (Z.min (skip + limit) (Z.of_nat (length l))
                       - Z.min skip (Z.of_nat (length l))))
      with (Z.to_nat limit `min` length (drop (Z.to_nat skip) l))%nat
      by (rewrite length_drop; lia).
    rewrite <-take_take. f_equal. by apply take_ge.
Qed.

Lemma page_length {A} (l : list A) (limit skip : Z) :
  0 ≤ limit → 0 ≤ skip →
  Z.of_nat (length (take (Z.to_nat limit) (drop (Z.to_nat skip) l))) =
  Z.max 0 (Z.min limit (Z.of_nat (length l) - skip)).
Proof. intros Hl Hs. rewrite length_take, length_drop. lia. Qed.

(** C4. For limit L in [1,100], skip S ≥ 0 and a priority filter that, when
    supplied, lies in [1,5], [List] succeeds without touching the storage.
    It keeps the stored records that agree with every supplied filter
    field, in storage order, and returns the L records of that sequence
    that follow the first S: max(0, min(L, N − S)) records when N records
    pass the filter. An empty page is a result like any other. *)
Theorem get_todos_filter_then_page s completed priority L S :
  1 ≤ L ≤ 100 → 0 ≤ S →
  match priority with Some p => 1 ≤ p ≤ 5 | None => True end →
  ∃ page,
    get_todos completed priority L S s = (Ok page, s) ∧
    page = take (Z.to_nat L) (drop (Z.to_nat S) (filter (matches completed priority) s)) ∧
    Z.of_nat (length page) =
      Z.max 0 (Z.min L (Z.of_nat (length (filter (matches completed priority) s)) - S)) ∧
    page `sublist_of` s.
Proof.
  intros HL HS Hp. rewrite get_todos_run.
  assert (query_ok priority L S = true) as ->.
  { unfold query_ok. rewrite !andb_true_iff. split_and!.
    - destruct priority as [p|]; [|done]. by apply int_range_ok_spec.
    - by apply int_range_ok_spec.
    - by apply Z.leb_le. }
  eexists. split; [reflexivity|].
  rewrite py_slice_page by lia. split; [done|]. split.
  - apply page_length; lia.
  - etrans; [apply sublist_take|]. etrans; [apply sublist_drop|].
    apply sublist_filter.
Qed.

Lemma get_todos_filter_then_page_witness :
  let a := Todo.Make 1%N (Some (py "A")) None (Some 5) (Some false) 0 None in
  let b := Todo.Make 2%N (Some (py "B")) None (Some 1) (Some false) 0 None in
  let c := Todo.Make 3%N (Some (py "C")) None (Some 5) (Some false) 0 None in
  ∃ page,
    get_todos (Some false) (Some 5) 1 1 [a; b; c] = (Ok page, [a; b; c]) ∧
    page = [c] ∧ Z.of_nat (length page) = 1.
Proof.
  intros a b c.
  destruct (get_todos_filter_then_page [a; b; c] (Some false) (Some 5) 1 1
              ltac:(lia) ltac:(lia) ltac:(simpl; lia))
    as (page & Hrun & Hpage & Hlen & _).
  exists page. split; [exact Hrun|]. split; [exact Hpage | exact Hlen].
Defined.

(** The same statement for every priority filter fails: a filter outside
    [1,5] is rejected before the storage is read. *)
Lemma get_todos_rejects_priority_filter :
  ¬ (∀ s completed priority L S,
       1 ≤ L ≤ 100 → 0 ≤ S →
       ∃ page,
         get_todos completed priority L S s = (Ok page, s) ∧
         page = take (Z.to_nat L)
                     (drop (Z.to_nat S) (filter (matches completed priority) s)) ∧
         Z.of_nat (length page) =
           Z.max 0 (Z.min L (Z.of_nat (length (filter (matches completed priority) s)) - S))).
Proof.
  intros H.
  destruct (H [] None (Some 6) 10 0 ltac:(lia) ltac:(lia)) as (page & Hrun & _).
  discriminate Hrun.
Qed.

(** ** Sequences of requests *)

Lemma fmapM_storage {A B} (f : A → B) (c : M A) s : (fmapM f c s).2 = (c s).2.
Proof. unfold fmapM, bind, ret. by destruct (c s) as [[a|e] s']. Qed.

Lemma fmapM_succeeds {A B} (f : A → B) (c : M A) s :
  succeeds (fmapM f c s).1 = succeeds (c s).1.
Proof. unfold fmapM, bind, ret. by destruct (c s) as [[a|e] s']. Qed.

Lemma run_from_snoc s qs q : run_from s (qs ++ [q]) = step (run_from s qs) q.
Proof. unfold run_from. by rewrite foldl_snoc. Qed.

Lemma run_tracked_from_snoc s qs q :
  run_tracked_from s (qs ++ [q]) = step_tracked (run_tracked_from s qs) q.
Proof. unfold run_tracked_from. by rewrite foldl_snoc. Qed.

(** Tracking the history does not change the storage. *)
Lemma run_tracked_from_storage s qs : (run_tracked_from s qs).1 = run_from s qs.
Proof.
  induction qs as [|q qs IH] using rev_ind; [done|].
  rewrite run_tracked_from_snoc, run_from_snoc. simpl. by rewrite IH.
Qed.

Lemma title_ok_strip v : strip v ≠ [] → title_ok (Some (strip v)).
Proof. intros H. exists (strip v). by rewrite strip_idemp. Qed.

Lemma created_well_formed body b uuid4 now :
  TodoCreate.validate body = Some b →
  well_formed (Todo.Make uuid4 (Some (TodoBase.title b)) (TodoBase.description b)
                         (Some (TodoBase.priority b)) (Some (TodoBase.completed b))
                         now None).
Proof.
  unfold TodoCreate.validate. intros H.
  destruct (TodoBase.validate_title (p_title body)) as [t|] eqn:Ht; [|done].
  destruct (TodoBase.validate_description (p_description body)) as [d|]; [|done].
  destruct (TodoBase.validate_priority (p_priority body)) as [p|] eqn:Hp; [|done].
  destruct (TodoBase.validate_completed (p_completed body)) as [c|]; [|done].
  simpl in H. injection H as <-. split; simpl.
  - apply base_title_Some in Ht as (v & _ & _ & _ & Hne & ->).
    by apply title_ok_strip.
  - exists p. split; [done|]. by eapply base_priority_range.
Qed.

Lemma updated_well_formed body u now o :
  TodoUpdate.validate body = Some u →
  p_title body ≠ Null → p_priority body ≠ Null →
  well_formed o → well_formed (updated u now o).
Proof.
  intros Hu Hnt Hnp [Ht Hp].
  apply update_validate_Some in Hu as (Et & _ & Ep & _ & Htitle & Hprio).
  rewrite updated_fields. split; simpl.
  - rewrite Et. destruct (p_title body) as [| |v]; [done..|].
    apply title_ok_strip. by apply (Htitle v).
  - rewrite Ep. destruct (p_priority body) as [| |v]; [done..|].
    exists v. split; [done|]. by apply Hprio.
Qed.

(** As long as no update sets [title] or [priority] to [null], every
    request keeps the stored records well formed. *)
Lemma step_well_formed s q :
  null_free q → Forall well_formed s → Forall well_formed (step s q).
Proof.
  intros Hq Hs. unfold step.
  destruct q as [completed priority limit skip| |todo_id|body uuid4 now
                |todo_id body now|todo_id|todo_id now];
    unfold handle; rewrite fmapM_storage.
  - rewrite get_todos_run. by destruct (query_ok priority limit skip).
  - done.
  - rewrite get_todo_run. by destruct (find_todo todo_id s).
  - rewrite create_todo_run.
    destruct (TodoCreate.validate body) as [b|] eqn:E; [|done]. simpl.
    apply Forall_app. split; [done|]. apply Forall_singleton.
    by eapply created_well_formed.
  - rewrite update_todo_run.
    destruct (TodoUpdate.validate body) as [u|] eqn:E; [|done].
    destruct (find_todo todo_id s) as [r|]; [|done].
    destruct (s !! r) as [o|] eqn:Ho; [|done]. simpl.
    destruct Hq as [Hnt Hnp].
    apply Forall_insert; [done|].
    eapply updated_well_formed; [done..|].
    by eapply (Forall_lookup_1 _ s r o).
  - rewrite delete_todo_run.
    destruct (find_todo todo_id s) as [r|]; [|done]. simpl.
    by apply Forall_delete.
  - rewrite toggle_todo_completion_run.
    destruct (find_todo todo_id s) as [r|]; [|done].
    destruct (s !! r) as [o|] eqn:Ho; [|done]. simpl.
    apply Forall_insert; [done|].
    pose proof (Forall_lookup_1 _ s r o Hs Ho) as Hw.
    rewrite toggled_fields. exact Hw.
Qed.

Lemma null_free_run_from_well_formed s qs :
  Forall well_formed s → Forall null_free qs →
  Forall well_formed (run_from s qs).
Proof.
  intros Hs. induction qs as [|q qs IH] using rev_ind; intros Hqs; [done|].
  apply Forall_app in Hqs as [Hqs Hq]. rewrite run_from_snoc.
  apply step_well_formed; [|by apply IH].
  by inversion Hq.
Qed.

Lemma null_free_run_well_formed qs :
  Forall null_free qs → Forall well_formed (run qs).
Proof. apply null_free_run_from_well_formed. constructor. Qed.

(** C2. The invariant on stored titles and priorities is broken by an
    update that sets the fields to [null]: after creating a record and
    sending it the body [{"title": null, "priority": null}], the stored
    record has neither a title nor a priority. *)
Theorem update_null_breaks_invariant :
  let s :=
    run [Create (Payload (Given (py "A")) Missing (Given 5) Missing) 1%N 0;
         Update 1%N (Payload Null Missing Null Missing) 1] in
  reachable s ∧
  ∃ todo, s !! 0%nat = Some todo ∧
          Todo.title todo = None ∧ Todo.priority todo = None ∧
          ¬ well_formed todo.
Proof.
  intros s. split; [by eexists|].
  eexists. split; [reflexivity|]. split; [reflexivity|]. split; [reflexivity|].
  intros [(t & Ht & _) _]. discriminate Ht.
Qed.

(** ** [updated_at] and the history of a record *)

Lemma step_tracked_invariant s g q :
  Forall2 (λ todo n, Todo.updated_at todo = None ↔ n = 0%nat) s g →
  Forall2 (λ todo n, Todo.updated_at todo = None ↔ n = 0%nat)
          (step s q) (track s g q).
Proof.
  intros H. unfold step, track.
  destruct q as [completed priority limit skip| |todo_id|body uuid4 now
                |todo_id body now|todo_id|todo_id now];
    unfold handle; rewrite fmapM_storage, fmapM_succeeds.
  - rewrite get_todos_run. by destruct (query_ok priority limit skip).
  - done.
  - rewrite get_todo_run.
    destruct (find_todo todo_id s) as [r|]; [|done]. simpl.
    by destruct (succeeds _).
  - rewrite create_todo_run.
    destruct (TodoCreate.validate body) as [b|]; [|done]. simpl.
    apply Forall2_app; [done|]. by apply Forall2_cons.
  - rewrite update_todo_run.
    destruct (TodoUpdate.validate body) as [u|]; [|done].
    destruct (find_todo todo_id s) as [r|]; [|done].
    destruct (s !! r) as [o|]; [|done]. simpl.
    rewrite list_insert_alter. apply Forall2_alter; [done|].
    intros x n _ _ _. rewrite updated_fields. simpl. split; [done|lia].
  - rewrite delete_todo_run.
    destruct (find_todo todo_id s) as [r|]; [|done]. simpl.
    by apply Forall2_delete.
  - rewrite toggle_todo_completion_run.
    destruct (find_todo todo_id s) as [r|]; [|done].
    destruct (s !! r) as [o|]; [|done]. simpl.
    rewrite list_insert_alter. apply Forall2_alter; [done|].
    intros x n _ _ _. rewrite toggled_fields. simpl. split; [done|lia].
Qed.

Lemma run_tracked_from_invariant s qs :
  fresh s →
  Forall2 (λ todo n, Todo.updated_at todo = None ↔ n = 0%nat)
          (run_tracked_from s qs).1 (run_tracked_from s qs).2.
Proof.
  intros Hs. induction qs as [|q qs IH] using rev_ind.
  - simpl. induction Hs as [|todo s Htodo Hs IHs]; simpl; constructor; [done|].
    exact IHs.
  - rewrite run_tracked_from_snoc. by apply step_tracked_invariant.
Qed.

(** The startup code always succeeds; the records it appends are well
    formed and unmodified, so both invariants also hold from there on. *)
Lemma lifespan_run id1 id2 id3 t1 t2 t3 :
  ∃ samples,
    lifespan id1 id2 id3 t1 t2 t3 [] = (Ok tt, samples) ∧
    length samples = 3%nat ∧ fresh samples ∧ Forall well_formed samples.
Proof.
  eexists. split; [reflexivity|]. split; [reflexivity|].
  split; repeat constructor; simpl.
  - by eexists.
  - exists 3. by split.
  - by eexists.
  - exists 4. by split.
  - by eexists.
  - exists 5. by split.
Qed.

(** C9. In every storage reached from the empty one, a record has
    [updated_at = None] exactly when no successful [Update] or [Toggle]
    has hit it since it was created. [Create] stores [updated_at = None];
    a successful [Update] or [Toggle] leaves the time of the request in
    the [updated_at] of the record it returns, which is the record stored
    under the requested id. *)
Theorem updated_at_null_iff_unmodified :
  (∀ qs, Forall2 (λ todo n, Todo.updated_at todo = None ↔ n = 0%nat)
                 (run qs) (modifications qs)) ∧
  (∀ body uuid4 now s new_todo s',
     create_todo body uuid4 now s = (Ok new_todo, s') →
     Todo.updated_at new_todo = None ∧ last s' = Some new_todo) ∧
  (∀ todo_id body now s todo s',
     update_todo todo_id body now s = (Ok todo, s') →
     Todo.updated_at todo = Some now ∧
     ∃ r, find_todo todo_id s' = Some r ∧ s' !! r = Some todo) ∧
  (∀ todo_id now s todo s',
     toggle_todo_completion todo_id now s = (Ok todo, s') →
     Todo.updated_at todo = Some now ∧
     ∃ r, find_todo todo_id s' = Some r ∧ s' !! r = Some todo).
Proof.
  split_and!.
  - intros qs. unfold run. rewrite <-run_tracked_from_storage.
    apply run_tracked_from_invariant. constructor.
  - intros body uuid4 now s new_todo s'. rewrite create_todo_run.
    destruct (TodoCreate.validate body) as [b|]; [|done].
    cbv zeta. intros [= <- <-]. by rewrite last_snoc.
  - intros todo_id body now s todo s'. rewrite update_todo_run.
    destruct (TodoUpdate.validate body) as [u|]; [|done].
    destruct (find_todo todo_id s) as [r|] eqn:Hr; [|done].
    destruct (s !! r) as [o|] eqn:Ho; [|done].
    intros [= <- <-]. rewrite updated_fields. split; [done|].
    exists r. split.
    + by eapply find_todo_insert.
    + apply list_lookup_insert_eq. by eapply lookup_lt_Some.
  - intros todo_id now s todo s'. rewrite toggle_todo_completion_run.
    destruct (find_todo todo_id s) as [r|] eqn:Hr; [|done].
    destruct (s !! r) as [o|] eqn:Ho; [|done].
    intros [= <- <-]. rewrite toggled_fields. split; [done|].
    exists r. split.
    + by eapply find_todo_insert.
    + apply list_lookup_insert_eq. by eapply lookup_lt_Some.
Qed.

Lemma updated_at_null_iff_unmodified_witness :
  let qs :=
    [Create (Payload (Given (py "A")) Missing Missing Missing) 1%N 0;
     Create (Payload (Given (py "B")) Missing Missing Missing) 2%N 1;
     Toggle 1%N 2] in
  modifications qs = [1; 0]%nat ∧
  Todo.updated_at <$> run qs = [Some 2; None] ∧
  Forall2 (λ todo n, Todo.updated_at todo = None ↔ n = 0%nat)
          (run qs) (modifications qs) ∧
  Todo.updated_at (Todo.Make 1%N (Some (py "A")) None (Some 1) (Some false) 0 None)
  = None.
Proof.
  intros qs. split; [reflexivity|]. split; [reflexivity|]. split.
  - exact (proj1 updated_at_null_iff_unmodified qs).
  - exact (proj1 (proj1 (proj2 updated_at_null_iff_unmodified)
                    (Payload (Given (py "A")) Missing Missing Missing) 1%N 0 []
                    _ _ eq_refl)).
Defined.

(** ** The scenarios of the test suite *)

Example test_get_stats_with_data :
  let s :=
    run [Create (Payload (Given (py "Todo 1")) Missing (Given 1) (Given true)) 1%N 0;
         Create (Payload (Given (py "Todo 2")) Missing (Given 2) (Given false)) 2%N 0;
         Create (Payload (Given (py "Todo 3")) Missing (Given 1) (Given false)) 3%N 0] in
  ∃ d, get_todo_stats s = (Ok d, s) ∧
       d !! "total_todos" = Some 3 ∧ d !! "completed_todos" = Some 1 ∧
       d !! "pending_todos" = Some 2 ∧
       d !! "priority_1" = Some 2 ∧ d !! "priority_2" = Some 1 ∧
       d !! "priority_3" = Some 0.
Proof. intros s. eexists. split; [reflexivity|]. by vm_compute. Qed.

Example test_title_validation :
  create_todo (Payload (Given (py "")) Missing Missing Missing) 1%N 0 []
  = (Raise RequestValidationError, []) ∧
  create_todo (Payload (Given (py "   ")) Missing Missing Missing) 1%N 0 []
  = (Raise RequestValidationError, []) ∧
  create_todo (Payload (Given (replicate 201 120%N)) Missing Missing Missing) 1%N 0 []
  = (Raise RequestValidationError, []).
Proof. by vm_compute. Qed.

Example test_delete_todo :
  let s := run [Create (Payload (Given (py "Sample Todo")) Missing (Given 2) Missing) 1%N 0] in
  (handle (Delete 1%N) s).1 = Ok NoContent ∧
  (handle (Get 1%N) (step s (Delete 1%N))).1 = Raise (TodoNotFoundError 1%N).
Proof. by vm_compute. Qed.

Example test_invalid_query_parameters :
  (get_todos None (Some 10) 10 0 []).1 = Raise RequestValidationError ∧
  (get_todos None None 0 0 []).1 = Raise RequestValidationError ∧
  (get_todos None None 10 (-1) []).1 = Raise RequestValidationError.
Proof. by vm_compute. Qed.

(** * Further properties of the handlers *)

(** ** Lookup *)

Lemma find_todo_Some_elem todo_id s o :
  o ∈ s → Todo.id o = todo_id → is_Some (find_todo todo_id s).
Proof.
  intros Hin Hid. destruct (find_todo todo_id s) as [r|] eqn:E; [by eexists|].
  by destruct (proj1 (find_todo_None todo_id s) E o Hin).
Qed.

Lemma find_todo_snoc_fresh todo_id s o :
  todo_id ∉ ids s → Todo.id o = todo_id →
  find_todo todo_id (s ++ [o]) = Some (length s).
Proof.
  intros Hfresh Hid. induction s as [|todo s IH]; simpl.
  - by rewrite decide_True.
  - rewrite decide_False.
    + rewrite IH; [done|]. intros Hin. apply Hfresh. by right.
    + intros E. apply Hfresh. rewrite <-E. left.
Qed.

Lemma find_todo_delete todo_id s r :
  NoDup (ids s) → find_todo todo_id s = Some r →
  find_todo todo_id (delete r s) = None.
Proof.
  revert r. induction s as [|todo s IH]; intros r Hnd; simpl; [done|].
  apply NoDup_cons in Hnd as [Hnotin Hnd].
  case_decide as Hid.
  - intros [= <-]. simpl. apply find_todo_None. intros o Ho E.
    apply Hnotin. rewrite Hid, <-E. by apply list_elem_of_fmap_2.
  - destruct (find_todo todo_id s) as [r'|] eqn:E; [|done].
    intros [= <-]. simpl. rewrite decide_False by done.
    by rewrite (IH r').
Qed.

(** X1. [Get] never changes the storage. It answers with the first stored
    record that carries the requested id, and with not-found exactly when
    no stored record carries it. *)
Theorem get_todo_first_match todo_id s :
  (get_todo todo_id s).2 = s ∧
  match (get_todo todo_id s).1 with
  | Ok o =>
      ∃ r, s !! r = Some o ∧ Todo.id o = todo_id ∧
           ∀ j o', (j < r)%nat → s !! j = Some o' → Todo.id o' ≠ todo_id
  | Raise e =>
      e = TodoNotFoundError todo_id ∧ ∀ o, o ∈ s → Todo.id o ≠ todo_id
  end.
Proof.
  rewrite get_todo_run.
  destruct (find_todo todo_id s) as [r|] eqn:E; simpl.
  - split; [done|].
    destruct (find_todo_lookup _ _ _ E) as (o & Ho & Hid). rewrite Ho. simpl.
    exists r. split_and!; [done..|].
    intros j o' Hj Ho'. by eapply find_todo_first.
  - split; [done|]. split; [done|]. by apply find_todo_None.
Qed.

(** X2. A record created under an id that no stored record carries is the
    one [Get] returns for that id right afterwards. *)
Theorem create_then_get body uuid4 now s new_todo s' :
  uuid4 ∉ ids s →
  create_todo body uuid4 now s = (Ok new_todo, s') →
  get_todo uuid4 s' = (Ok new_todo, s').
Proof.
  intros Hfresh. rewrite create_todo_run.
  destruct (TodoCreate.validate body) as [b|]; [|done].
  cbv zeta. intros [= <- <-]. rewrite get_todo_run.
  rewrite find_todo_snoc_fresh by done.
  by rewrite lookup_app_r, Nat.sub_diag by lia.
Qed.

Lemma create_then_get_witness :
  let old := Todo.Make 1%N (Some (py "A")) None (Some 5) (Some false) 0 None in
  let new_todo := Todo.Make 2%N (Some (py "B")) None (Some 1) (Some false) 3 None in
  (2%N ∉ ids [old]) ∧
  create_todo (Payload (Given (py "B")) Missing Missing Missing) 2%N 3 [old]
  = (Ok new_todo, [old; new_todo]) ∧
  get_todo 2%N [old; new_todo] = (Ok new_todo, [old; new_todo]).
Proof.
  intros old new_todo.
  assert (2%N ∉ ids [old]) as Hfresh.
  { intros [E|H]%elem_of_cons; [discriminate E|]. by apply elem_of_nil in H. }
  split; [exact Hfresh|]. split; [reflexivity|].
  exact (create_then_get (Payload (Given (py "B")) Missing Missing Missing)
           2%N 3 [old] new_todo [old; new_todo] Hfresh eq_refl).
Defined.

(** ** Delete *)

(** X3. A successful [Delete] removes exactly one record, the first one
    that carries the requested id: the storage gets shorter by one and the
    other records stay, in their order. *)
Theorem delete_removes_first_match todo_id s s' :
  delete_todo todo_id s = (Ok tt, s') →
  ∃ r o,
    s !! r = Some o ∧ Todo.id o = todo_id ∧
    (∀ j o', (j < r)%nat → s !! j = Some o' → Todo.id o' ≠ todo_id) ∧
    s' = take r s ++ drop (S r) s ∧
    S (length s') = length s ∧
    s' `sublist_of` s.
Proof.
  rewrite delete_todo_run.
  destruct (find_todo todo_id s) as [r|] eqn:E; [|done].
  intros [= <-].
  destruct (find_todo_lookup _ _ _ E) as (o & Ho & Hid).
  exists r, o. split_and!; try done.
  - intros j o' Hj Ho'. by eapply find_todo_first.
  - apply delete_take_drop.
  - rewrite length_delete by eauto.
    apply lookup_lt_Some in Ho. lia.
  - apply sublist_delete.
Qed.

Lemma delete_removes_first_match_witness :
  let a := Todo.Make 1%N (Some (py "A")) None (Some 5) (Some false) 0 None in
  let b := Todo.Make 2%N (Some (py "B")) None (Some 1) (Some false) 0 None in
  delete_todo 1%N [a; b] = (Ok tt, [b]) ∧ S (length [b]) = length [a; b].
Proof.
  intros a b. split; [reflexivity|].
  destruct (delete_removes_first_match 1%N [a; b] [b] eq_refl)
    as (r & o & _ & _ & _ & _ & Hlen & _).
  exact Hlen.
Defined.

(** X4. When the stored ids are pairwise distinct, the id of a deleted
    record is gone: [Get], [Update], [Toggle] and a second [Delete] on it
    all answer not-found. *)
Theorem delete_then_not_found todo_id s s' :
  NoDup (ids s) →
  delete_todo todo_id s = (Ok tt, s') →
  get_todo todo_id s' = (Raise (TodoNotFoundError todo_id), s') ∧
  delete_todo todo_id s' = (Raise (TodoNotFoundError todo_id), s') ∧
  (∀ now, toggle_todo_completion todo_id now s'
          = (Raise (TodoNotFoundError todo_id), s')) ∧
  (∀ body now, is_Some (TodoUpdate.validate body) →
               update_todo todo_id body now s'
               = (Raise (TodoNotFoundError todo_id), s')).
Proof.
  intros Hnd. rewrite delete_todo_run.
  destruct (find_todo todo_id s) as [r|] eqn:E; [|done].
  intros [= <-]. pose proof (find_todo_delete _ _ _ Hnd E) as Hgone.
  split_and!.
  - by rewrite get_todo_run, Hgone.
  - by rewrite delete_todo_run, Hgone.
  - intros now. by rewrite toggle_todo_completion_run, Hgone.
  - intros body now [u Hu]. by rewrite update_todo_run, Hu, Hgone.
Qed.

Lemma delete_then_not_found_witness :
  let a := Todo.Make 1%N (Some (py "A")) None (Some 5) (Some false) 0 None in
  let b := Todo.Make 2%N (Some (py "B")) None (Some 1) (Some false) 0 None in
  NoDup (ids [a; b]) ∧
  delete_todo 1%N [a; b] = (Ok tt, [b]) ∧
  get_todo 1%N [b] = (Raise (TodoNotFoundError 1%N), [b]).
Proof.
  intros a b.
  assert (NoDup (ids [a; b])) as Hnd.
  { apply (bool_decide_unpack _). by vm_compute. }
  split; [exact Hnd|]. split; [reflexivity|].
  exact (proj1 (delete_then_not_found 1%N [a; b] [b] Hnd eq_refl)).
Defined.

(** ** Identity of the stored records *)

Lemma step_identity s q :
  identity <$> step s q =
  match q with
  | Create body uuid4 now =>
      if succeeds (handle q s).1 then (identity <$> s) ++ [(uuid4, now)]
      else identity <$> s
  | Delete todo_id =>
      match find_todo todo_id s with
      | Some r => delete r (identity <$> s)
      | None => identity <$> s
      end
  | _ => identity <$> s
  end.
Proof.
  unfold step.
  destruct q as [completed priority limit skip| |todo_id|body uuid4 now
                |todo_id body now|todo_id|todo_id now];
    unfold handle; rewrite ?fmapM_succeeds, fmapM_storage.
  - rewrite get_todos_run. by destruct (query_ok priority limit skip).
  - done.
  - rewrite get_todo_run. by destruct (find_todo todo_id s).
  - rewrite create_todo_run.
    destruct (TodoCreate.validate body) as [b|]; [|done]. simpl.
    by rewrite fmap_app.
  - rewrite update_todo_run.
    destruct (TodoUpdate.validate body) as [u|]; [|done].
    destruct (find_todo todo_id s) as [r|]; [|done].
    destruct (s !! r) as [o|] eqn:Ho; [|done]. simpl.
    rewrite list_fmap_insert, updated_fields. unfold identity at 1. simpl.
    apply list_insert_id. by rewrite list_lookup_fmap, Ho.
  - rewrite delete_todo_run.
    destruct (find_todo todo_id s) as [r|]; [|done]. simpl.
    apply list_fmap_delete.
  - rewrite toggle_todo_completion_run.
    destruct (find_todo todo_id s) as [r|]; [|done].
    destruct (s !! r) as [o|] eqn:Ho; [|done]. simpl.
    rewrite list_fmap_insert, toggled_fields. unfold identity at 1. simpl.
    apply list_insert_id. by rewrite list_lookup_fmap, Ho.
Qed.

Lemma ids_identity s : ids s = (identity <$> s).*1.
Proof. unfold ids. by rewrite <-list_fmap_compose. Qed.

Lemma step_ids_NoDup s q :
  NoDup (ids s) →
  match q with Create _ uuid4 _ => uuid4 ∉ ids s | _ => True end →
  NoDup (ids (step s q)).
Proof.
  intros Hnd Hq. rewrite ids_identity, step_identity.
  destruct q as [completed priority limit skip| |todo_id|body uuid4 now
                |todo_id body now|todo_id|todo_id now].
  1-3, 5, 7: by rewrite <-ids_identity.
  - destruct (succeeds _); [|by rewrite <-ids_identity].
    rewrite fmap_app, <-ids_identity. simpl.
    apply NoDup_app. split_and!; [done| |apply NoDup_singleton].
    intros x Hx ->%list_elem_of_singleton. done.
  - destruct (find_todo todo_id s) as [r|]; [|by rewrite <-ids_identity].
    rewrite list_fmap_delete, <-ids_identity.
    apply (sublist_NoDup _ (ids s)); [done|apply sublist_delete].
Qed.

(** X5. Distinct ids stay distinct: when the stored ids are pairwise
    distinct and every [Create] of a sequence of requests draws an id that
    is not yet stored, the ids are pairwise distinct after the sequence. *)
Theorem ids_stay_unique s qs :
  NoDup (ids s) → fresh_creates s qs → NoDup (ids (run_from s qs)).
Proof.
  revert s. induction qs as [|q qs IH]; intros s Hnd Hfresh; [done|].
  destruct Hfresh as [Hq Hfresh]. simpl. apply IH; [|done].
  by apply step_ids_NoDup.
Qed.

Lemma ids_stay_unique_witness :
  let qs :=
    [Create (Payload (Given (py "A")) Missing Missing Missing) 1%N 0;
     Create (Payload (Given (py "B")) Missing Missing Missing) 2%N 1;
     Toggle 1%N 2; Delete 1%N;
     Create (Payload (Given (py "C")) Missing Missing Missing) 1%N 3] in
  ids (run_from [] qs) = [2%N; 1%N] ∧ NoDup (ids (run_from [] qs)).
Proof.
  intros qs. split; [reflexivity|].
  apply (ids_stay_unique [] qs).
  - constructor.
  - simpl. split_and!; try exact I.
    + apply not_elem_of_nil.
    + apply (bool_decide_unpack _). by vm_compute.
    + apply (bool_decide_unpack _). by vm_compute.
Defined.

(** X6. No request changes the id or the creation time of a stored
    record, or moves a record: the list of (id, created_at) pairs stays as
    it is, except that a successful [Create] appends the pair of the new
    record and a successful [Delete] removes the pair of the deleted one. *)
Theorem identity_is_immutable s q :
  identity <$> step s q =
  match q with
  | Create body uuid4 now =>
      if succeeds (create_todo body uuid4 now s).1
      then (identity <$> s) ++ [(uuid4, now)]
      else identity <$> s
  | Delete todo_id =>
      match find_todo todo_id s with
      | Some r => delete r (identity <$> s)
      | None => identity <$> s
      end
  | List _ _ _ _ | Stats | Get _ | Update _ _ _ | Toggle _ _ => identity <$> s
  end.
Proof.
  rewrite step_identity. destruct q; try done.
  unfold handle. by rewrite fmapM_succeeds.
Qed.

(** ** Toggle and Update *)

(** X7. A successful [Toggle] rewrites one stored record in place: the
    first with the requested id. It stores the negation of the truth value
    of [completed] and the time of the request in [updated_at]; every other
    field of the record and every other record stay as they were. *)
Theorem toggle_todo_frame todo_id now s new_todo s' :
  toggle_todo_completion todo_id now s = (Ok new_todo, s') →
  ∃ r old,
    find_todo todo_id s = Some r ∧ s !! r = Some old ∧ s' = <[r := new_todo]> s ∧
    Todo.completed new_todo = Some (negb (truthy (Todo.completed old))) ∧
    Todo.updated_at new_todo = Some now ∧
    Todo.id new_todo = Todo.id old ∧
    Todo.title new_todo = Todo.title old ∧
    Todo.description new_todo = Todo.description old ∧
    Todo.priority new_todo = Todo.priority old ∧
    Todo.created_at new_todo = Todo.created_at old ∧
    (∀ j, j ≠ r → s' !! j = s !! j).
Proof.
  rewrite toggle_todo_completion_run.
  destruct (find_todo todo_id s) as [r|] eqn:Hr; [|done].
  destruct (s !! r) as [old|] eqn:Hold; [|done].
  intros [= <- <-]. exists r, old. rewrite toggled_fields. simpl.
  split_and!; try done.
  intros j Hj. by apply list_lookup_insert_ne.
Qed.

Lemma toggle_todo_frame_witness :
  let old := Todo.Make 1%N (Some (py "A")) None (Some 5) (Some false) 0 None in
  let new_todo := Todo.Make 1%N (Some (py "A")) None (Some 5) (Some true) 0 (Some 4) in
  toggle_todo_completion 1%N 4 [old] = (Ok new_todo, [new_todo]) ∧
  Todo.completed new_todo = Some (negb (truthy (Todo.completed old))).
Proof.
  intros old new_todo. split; [reflexivity|].
  destruct (toggle_todo_frame 1%N 4 [old] new_todo [new_todo] eq_refl)
    as (r & o & Hr & Ho & _ & Hc & _).
  injection Hr as <-. injection Ho as <-. exact Hc.
Defined.

Lemma updated_updated u now1 now2 o :
  updated u now2 (updated u now1 o) = updated u now2 o.
Proof.
  rewrite !updated_fields. simpl.
  by destruct (TodoUpdate.title u), (TodoUpdate.description u),
              (TodoUpdate.priority u), (TodoUpdate.completed u).
Qed.

(** X8. [Update] is idempotent up to the time stamp: sending the same body
    to the same id a second time leaves the storage and the answer exactly
    as if only the second request had been sent. *)
Theorem update_todo_twice todo_id body now1 now2 s o1 s1 :
  update_todo todo_id body now1 s = (Ok o1, s1) →
  update_todo todo_id body now2 s1 = update_todo todo_id body now2 s.
Proof.
  rewrite !update_todo_run.
  destruct (TodoUpdate.validate body) as [u|]; [|done].
  destruct (find_todo todo_id s) as [r|] eqn:Hr; [|done].
  destruct (s !! r) as [o|] eqn:Ho; [|done].
  intros [= <- <-].
  erewrite find_todo_insert; [|done..|by rewrite updated_fields].
  rewrite list_lookup_insert_eq by by eapply lookup_lt_Some.
  by rewrite updated_updated, list_insert_insert_eq.
Qed.

Lemma update_todo_twice_witness :
  let old := Todo.Make 1%N (Some (py "A")) None (Some 5) (Some false) 0 None in
  let body := Payload (Given (py " B ")) Missing (Given 2) Missing in
  let new_todo := Todo.Make 1%N (Some (py "B")) None (Some 2) (Some false) 0 (Some 8) in
  update_todo 1%N body 7 [old]
  = (Ok (Todo.Make 1%N (Some (py "B")) None (Some 2) (Some false) 0 (Some 7)),
     [Todo.Make 1%N (Some (py "B")) None (Some 2) (Some false) 0 (Some 7)]) ∧
  update_todo 1%N body 8
    [Todo.Make 1%N (Some (py "B")) None (Some 2) (Some false) 0 (Some 7)]
  = (Ok new_todo, [new_todo]).
Proof.
  intros old body new_todo. split; [reflexivity|].
  exact (eq_trans
           (update_todo_twice 1%N body 7 8 [old]
              (Todo.Make 1%N (Some (py "B")) None (Some 2) (Some false) 0 (Some 7))
              [Todo.Make 1%N (Some (py "B")) None (Some 2) (Some false) 0 (Some 7)]
              eq_refl)
           eq_refl).
Defined.

(** ** Whitespace *)

Lemma lstrip_split s :
  ∃ pre, s = pre ++ lstrip s ∧ all_space pre ∧
         ∀ c, head (lstrip s) = Some c → isspace c = false.
Proof.
  induction s as [|c s (pre & E & Hpre & Hhead)]; simpl.
  - exists []. split; [done|]. split; [constructor|done].
  - destruct (isspace c) eqn:Hc.
    + exists (c :: pre). split; [by rewrite E at 1|].
      split; [by constructor|done].
    + exists []. split; [done|]. split; [constructor|].
      simpl. by intros ? [= <-].
Qed.

Lemma lstrip_nil_iff s : lstrip s = [] ↔ all_space s.
Proof.
  induction s as [|c s IH]; simpl.
  - split; [constructor|done].
  - destruct (isspace c) eqn:Hc.
    + rewrite IH. split; [by constructor|]. by intros [_ H]%Forall_cons.
    + split; [done|]. intros [H _]%Forall_cons. congruence.
Qed.

Lemma rstrip_split s :
  ∃ suf, s = rstrip s ++ suf ∧ all_space suf ∧
         ∀ c, last (rstrip s) = Some c → isspace c = false.
Proof.
  destruct (lstrip_split (reverse s)) as (pre & E & Hpre & Hhead).
  exists (reverse pre). unfold rstrip. split_and!.
  - rewrite <-reverse_app, <-E. by rewrite reverse_involutive.
  - by apply Forall_reverse.
  - intros c. rewrite last_reverse. apply Hhead.
Qed.

Lemma strip_nil_iff s : strip s = [] ↔ all_space s.
Proof.
  rewrite <-lstrip_nil_iff. unfold strip. split.
  - intros H. destruct (lstrip s) as [|c l] eqn:E; [done|].
    assert (isspace c = false) as Hc.
    { apply (lstrip_fixed_head c l). rewrite <-E. apply lstrip_idemp. }
    by rewrite rstrip_cons in H.
  - by intros ->.
Qed.

(** What [strip] removes is whitespace at both ends, and all of it. *)
Lemma strip_split v :
  ∃ pre suf, v = pre ++ strip v ++ suf ∧ all_space pre ∧ all_space suf ∧
             trimmed (strip v).
Proof.
  destruct (lstrip_split v) as (pre & E & Hpre & Hhead).
  destruct (rstrip_split (lstrip v)) as (suf & E' & Hsuf & Hlast).
  exists pre, suf. unfold strip. split_and!; try done.
  - by rewrite <-E'.
  - split; [|done]. intros c.
    destruct (lstrip v) as [|d l] eqn:El; [done|].
    assert (isspace d = false) as Hd by by apply Hhead.
    rewrite rstrip_cons by done. simpl. by intros [= <-].
Qed.

(** X9. The title validators of [TodoBase] and [TodoUpdate] reject a
    string exactly when it consists of whitespace only (the empty string
    included). Otherwise both return the same string: the input without
    the whitespace at its two ends, and nothing else removed. *)
Theorem title_validators_trim v :
  (TodoBase.title_must_not_be_empty v = None ↔ all_space v) ∧
  (TodoUpdate.title_must_not_be_empty (Some v) = None ↔ all_space v) ∧
  ∀ t, TodoBase.title_must_not_be_empty v = Some t →
       TodoUpdate.title_must_not_be_empty (Some v) = Some (Some t) ∧
       t ≠ [] ∧ trimmed t ∧
       ∃ pre suf, v = pre ++ t ++ suf ∧ all_space pre ∧ all_space suf.
Proof.
  unfold TodoBase.title_must_not_be_empty, TodoUpdate.title_must_not_be_empty.
  rewrite <-strip_nil_iff.
  destruct (strip v) as [|c l] eqn:E; simpl.
  - split_and!; done.
  - split_and!; [done..|]. intros t [= <-].
    assert (v ≠ []) as Hv%str_truthy_true.
    { apply strip_nonempty. by rewrite E. }
    rewrite Hv. split; [done|]. split; [done|].
    destruct (strip_split v) as (pre & suf & Hsplit & Hpre & Hsuf & Htrim).
    rewrite E in Hsplit, Htrim. split; [done|]. by exists pre, suf.
Qed.

Lemma title_validators_trim_witness :
  TodoBase.title_must_not_be_empty (py "  Buy milk ") = Some (py "Buy milk") ∧
  TodoUpdate.title_must_not_be_empty (Some (py "  Buy milk "))
  = Some (Some (py "Buy milk")) ∧
  trimmed (py "Buy milk").
Proof.
  split; [reflexivity|].
  destruct (proj2 (proj2 (title_validators_trim (py "  Buy milk ")))
              (py "Buy milk") eq_refl) as (Hu & _ & Ht & _).
  split; [exact Hu | exact Ht].
Defined.

(** ** Acceptance of bodies *)





(** X11. The record that [Create] stores carries the id and the time it
    was given, no [updated_at], the supplied description, priority and
    completion flag, and the defaults [None], 1 and [False] for the ones
    the body leaves out; the records stored before are untouched. *)
Theorem create_todo_stores_fields body uuid4 now s new_todo s' :
  create_todo body uuid4 now s = (Ok new_todo, s') →
  s' = s ++ [new_todo] ∧
  Todo.id new_todo = uuid4 ∧
  Todo.created_at new_todo = now ∧
  Todo.updated_at new_todo = None ∧
  Todo.description new_todo =
    match p_description body with Given v => Some v | Null | Missing => None end ∧
  Todo.priority new_todo =
    Some (match p_priority body with Given v => v | Null | Missing => 1 end) ∧
  Todo.completed new_todo =
    Some (match p_completed body with Given v => v | Null | Missing => false end).
Proof.
  rewrite create_todo_run.
  destruct (TodoCreate.validate body) as [b|] eqn:E; [|done].
  cbv zeta. intros [= <- <-]. simpl. unfold TodoCreate.validate in E.
  destruct (TodoBase.validate_title (p_title body)) as [t|]; [|done].
  destruct (TodoBase.validate_description (p_description body)) as [d|] eqn:Hd; [|done].
  destruct (TodoBase.validate_priority (p_priority body)) as [p|] eqn:Hp; [|done].
  destruct (TodoBase.validate_completed (p_completed body)) as [c|] eqn:Hc; [|done].
  simpl in E. injection E as <-. simpl.
  apply base_description_Some in Hd. apply base_priority_Some in Hp.
  split_and!; try done.
  - destruct (p_description body); [done..|]. by destruct Hd as (_ & _ & ->).
  - destruct (p_priority body); [by subst|done|]. destruct Hp. by subst.
  - destruct (p_completed body); simpl in Hc; congruence.
Qed.

Lemma create_todo_stores_fields_witness :
  let new_todo := Todo.Make 9%N (Some (py "A")) None (Some 1) (Some false) 4 None in
  create_todo (Payload (Given (py "A")) Missing Missing Missing) 9%N 4 []
  = (Ok new_todo, [new_todo]) ∧
  Todo.priority new_todo = Some 1 ∧ Todo.completed new_todo = Some false.
Proof.
  intros new_todo. split; [reflexivity|].
  destruct (create_todo_stores_fields
              (Payload (Given (py "A")) Missing Missing Missing) 9%N 4 []
              new_todo [new_todo] eq_refl)
    as (_ & _ & _ & _ & _ & Hp & Hc).
  split; [exact Hp | exact Hc].
Defined.






(** X13. The client's [create_todo] called with a title only posts its own
    defaults ([description=None], [priority=1], [completed=False]); the
    server treats that body exactly like a body that carries the title
    alone. *)
Theorem client_defaults_are_server_defaults title uuid4 now s :
  create_todo (TodoClient_create_todo_data title None 1 false) uuid4 now s =
  create_todo (Payload (Given title) Missing Missing Missing) uuid4 now s.
Proof.
  rewrite !create_todo_run. unfold TodoCreate.validate. simpl.
  by destruct (TodoBase.validate_title (Given title)).
Qed.

(** ** List, page by page *)

(** X14. Consecutive pages tile the filtered sequence: the page of L1
    records after S, followed by the page of L2 records after S + L1, is
    the page of L1 + L2 records after S. *)
Theorem get_todos_pages_tile s completed priority L1 L2 S :
  1 ≤ L1 → 1 ≤ L2 → L1 + L2 ≤ 100 → 0 ≤ S →
  match priority with Some p => 1 ≤ p ≤ 5 | None => True end →
  ∃ page1 page2,
    get_todos completed priority L1 S s = (Ok page1, s) ∧
    get_todos completed priority L2 (S + L1) s = (Ok page2, s) ∧
    get_todos completed priority (L1 + L2) S s = (Ok (page1 ++ page2), s).
Proof.
  intros H1 H2 H12 HS Hp. rewrite !get_todos_run.
  assert (∀ L S', 1 ≤ L ≤ 100 → 0 ≤ S' → query_ok priority L S' = true) as Hok.
  { intros L S' HL HS'. unfold query_ok. rewrite !andb_true_iff. split_and!.
    - destruct priority as [p|]; [|done]. by apply int_range_ok_spec.
    - by apply int_range_ok_spec.
    - by apply Z.leb_le. }
  rewrite !Hok by lia. rewrite !py_slice_page by lia.
  eexists _, _. split_and!; [done..|]. do 2 f_equal.
  rewrite !Z2Nat.inj_add by lia.
  by rewrite <-take_take_drop, drop_drop.
Qed.

Lemma get_todos_pages_tile_witness :
  let a := Todo.Make 1%N (Some (py "A")) None (Some 5) (Some false) 0 None in
  let b := Todo.Make 2%N (Some (py "B")) None (Some 1) (Some false) 0 None in
  let c := Todo.Make 3%N (Some (py "C")) None (Some 5) (Some false) 0 None in
  ∃ page1 page2,
    get_todos None None 1 1 [a; b; c] = (Ok page1, [a; b; c]) ∧
    get_todos None None 2 (1 + 1) [a; b; c] = (Ok page2, [a; b; c]) ∧
    get_todos None None (1 + 2) 1 [a; b; c] = (Ok (page1 ++ page2), [a; b; c]).
Proof.
  intros a b c.
  apply (get_todos_pages_tile [a; b; c] None None 1 2 1); simpl; lia.
Defined.

(** X15. [List] never changes the storage. Every record of a page is a
    stored record that passes the filter; and a request that skips nothing
    and whose limit is at least the number of stored records passing the
    filter returns all of them. *)
Theorem get_todos_page_members s completed priority L S page s' :
  get_todos completed priority L S s = (Ok page, s') →
  s' = s ∧
  (∀ todo, todo ∈ page → todo ∈ s ∧ matches completed priority todo) ∧
  (S = 0 → Z.of_nat (length (filter (matches completed priority) s)) ≤ L →
   page = filter (matches completed priority) s).
Proof.
  rewrite get_todos_run.
  destruct (query_ok priority L S) eqn:Hq; [|done]. intros [= <- <-].
  unfold query_ok in Hq. rewrite !andb_true_iff in Hq.
  destruct Hq as [[_ HL%int_range_ok_spec] HS%Z.leb_le].
  rewrite py_slice_page by lia. split; [done|]. split.
  - intros todo Hin.
    assert (todo ∈ filter (matches completed priority) s) as Hf.
    { eapply sublist_subseteq; [|exact Hin].
      etrans; [apply sublist_take|apply sublist_drop]. }
    apply list_elem_of_filter in Hf. tauto.
  - intros -> Hlen. simpl. rewrite drop_0. apply take_ge. lia.
Qed.

Lemma get_todos_page_members_witness :
  let a := Todo.Make 1%N (Some (py "A")) None (Some 5) (Some false) 0 None in
  let b := Todo.Make 2%N (Some (py "B")) None (Some 1) (Some false) 0 None in
  get_todos None (Some 5) 10 0 [a; b] = (Ok [a], [a; b]) ∧
  [a] = filter (matches None (Some 5)) [a; b].
Proof.
  intros a b. split; [reflexivity|].
  destruct (get_todos_page_members [a; b] None (Some 5) 10 0 [a] [a; b] eq_refl)
    as (_ & _ & Hall).
  apply Hall; [reflexivity|]. vm_compute. discriminate.
Defined.

(** ** Stats, further *)

Lemma count_priority_cons todo s n :
  count_priority (todo :: s) n =
  count_priority s n + (if decide (Todo.priority todo = Some n) then 1 else 0).
Proof.
  unfold count_priority. rewrite filter_cons.
  case_decide; simpl; lia.
Qed.

Lemma count_priority_nonneg s n : 0 ≤ count_priority s n.
Proof. unfold count_priority. lia. Qed.

Lemma priority_indicators todo :
  let i n := if decide (Todo.priority todo = Some n) then 1 else 0 in
  0 ≤ i 1 + i 2 + i 3 + i 4 + i 5 ≤ 1 ∧
  (priority_ok (Todo.priority todo) → i 1 + i 2 + i 3 + i 4 + i 5 = 1).
Proof.
  intros i. unfold i. destruct (Todo.priority todo) as [p|].
  - split.
    + repeat case_decide; simplify_eq; lia.
    + intros (q & [= <-] & Hq).
      assert (p = 1 ∨ p = 2 ∨ p = 3 ∨ p = 4 ∨ p = 5) as Hcases by lia.
      destruct Hcases as [->|[->|[->|[->| ->]]]];
        repeat case_decide; simplify_eq; lia.
  - split; [by repeat case_decide|]. by intros (q & ? & _).
Qed.

Lemma priority_counts_sum s :
  let total := count_priority s 1 + count_priority s 2 + count_priority s 3
               + count_priority s 4 + count_priority s 5 in
  total ≤ Z.of_nat (length s) ∧
  (Forall (λ todo, priority_ok (Todo.priority todo)) s →
   total = Z.of_nat (length s)).
Proof.
  induction s as [|todo s [IHle IHeq]]; [done|].
  cbv zeta. rewrite !count_priority_cons.
  destruct (priority_indicators todo) as [Hle Heq]. cbv zeta in Hle, Heq.
  split.
  - simpl length. lia.
  - intros [Hp Hs]%Forall_cons. specialize (IHeq Hs). specialize (Heq Hp).
    simpl length. cbv zeta in IHeq. lia.
Qed.

(** X16. The five per-priority counts of [Stats] never add up to more than
    [total_todos], and they add up to exactly [total_todos] when every
    stored record has a priority between 1 and 5. *)
Theorem stats_priority_counts_sum s :
  ∃ d p1 p2 p3 p4 p5 total,
    get_todo_stats s = (Ok d, s) ∧
    d !! "priority_1" = Some p1 ∧ d !! "priority_2" = Some p2 ∧
    d !! "priority_3" = Some p3 ∧ d !! "priority_4" = Some p4 ∧
    d !! "priority_5" = Some p5 ∧ d !! "total_todos" = Some total ∧
    0 ≤ p1 ∧ 0 ≤ p2 ∧ 0 ≤ p3 ∧ 0 ≤ p4 ∧ 0 ≤ p5 ∧
    p1 + p2 + p3 + p4 + p5 ≤ total ∧
    (Forall (λ todo, priority_ok (Todo.priority todo)) s →
     p1 + p2 + p3 + p4 + p5 = total).
Proof.
  unfold get_todo_stats. unfold_monad.
  eexists _, _, _, _, _, _, _. split; [reflexivity|].
  split_and!; [reflexivity..| | | | | | |]; try apply count_priority_nonneg.
  - apply priority_counts_sum.
  - apply priority_counts_sum.
Qed.

Lemma stats_priority_counts_sum_witness :
  let s := [Todo.Make 1%N (Some (py "A")) None (Some 5) (Some false) 0 None;
            Todo.Make 2%N (Some (py "B")) None None (Some false) 0 (Some 1)] in
  ∃ d p1 p2 p3 p4 p5 total,
    get_todo_stats s = (Ok d, s) ∧
    d !! "priority_1" = Some p1 ∧ d !! "priority_2" = Some p2 ∧
    d !! "priority_3" = Some p3 ∧ d !! "priority_4" = Some p4 ∧
    d !! "priority_5" = Some p5 ∧ d !! "total_todos" = Some total ∧
    p1 + p2 + p3 + p4 + p5 ≤ total.
Proof.
  intros s.
  destruct (stats_priority_counts_sum s)
    as (d & p1 & p2 & p3 & p4 & p5 & total & Hrun & H1 & H2 & H3 & H4 & H5 & Ht
        & _ & _ & _ & _ & _ & Hle & _).
  exists d, p1, p2, p3, p4, p5, total. by split_and!.
Defined.

(** X17. The dict that [Stats] returns has exactly eight keys, whatever
    the storage: the three totals and the five priority levels. *)
Theorem stats_keys s :
  ∃ d, get_todo_stats s = (Ok d, s) ∧
       dom d = ({[ "total_todos"; "completed_todos"; "pending_todos";
                   "priority_1"; "priority_2"; "priority_3"; "priority_4";
                   "priority_5" ]} : gset string) ∧
       size d = 8%nat.
Proof.
  unfold get_todo_stats. unfold_monad. eexists. split; [reflexivity|].
  split; reflexivity.
Qed.

Lemma length_filter_insert {A} (P : A → Prop) `{!∀ x, Decision (P x)}
    (l : list A) r o x :
  l !! r = Some o →
  Z.of_nat (length (filter P (<[r := x]> l))) =
  Z.of_nat (length (filter P l))
  - (if decide (P o) then 1 else 0) + (if decide (P x) then 1 else 0).
Proof.
  intros Ho. rewrite insert_take_drop by by eapply lookup_lt_Some.
  rewrite <-(take_drop_middle l r o Ho) at 3.
  rewrite !filter_app, !filter_cons, !length_app.
  repeat case_decide; simpl; lia.
Qed.

(** X18. A successful [Toggle] moves one record between the two halves of
    [Stats]: [total_todos] and the per-priority counts stay, and
    [completed_todos] grows by one while [pending_todos] shrinks by one
    when the record is now completed, and the other way round when it is
    now pending. *)
Theorem toggle_moves_one_in_stats todo_id now s new_todo s' :
  toggle_todo_completion todo_id now s = (Ok new_todo, s') →
  ∃ d d' total completed pending completed' pending',
    get_todo_stats s = (Ok d, s) ∧ get_todo_stats s' = (Ok d', s') ∧
    d !! "total_todos" = Some total ∧ d' !! "total_todos" = Some total ∧
    d !! "completed_todos" = Some completed ∧
    d' !! "completed_todos" = Some completed' ∧
    d !! "pending_todos" = Some pending ∧
    d' !! "pending_todos" = Some pending' ∧
    (if truthy (Todo.completed new_todo)
     then completed' = completed + 1 ∧ pending' = pending - 1
     else completed' = completed - 1 ∧ pending' = pending + 1) ∧
    d' !! "priority_1" = d !! "priority_1" ∧
    d' !! "priority_2" = d !! "priority_2" ∧
    d' !! "priority_3" = d !! "priority_3" ∧
    d' !! "priority_4" = d !! "priority_4" ∧
    d' !! "priority_5" = d !! "priority_5".
Proof.
  rewrite toggle_todo_completion_run.
  destruct (find_todo todo_id s) as [r|] eqn:Hr; [|done].
  destruct (s !! r) as [old|] eqn:Hold; [|done].
  intros [= <- <-].
  assert (∀ n, count_priority (<[r := toggled now old]> s) n = count_priority s n)
    as Hcount.
  { intros n. unfold count_priority.
    rewrite (length_filter_insert _ s r old) by done.
    rewrite toggled_fields. simpl. repeat case_decide; try done; lia. }
  pose proof (length_filter_insert (λ todo, truthy (Todo.completed todo))
                s r old (toggled now old) Hold) as Hcompleted.
  unfold get_todo_stats. unfold_monad.
  eexists _, _, _, _, _, _, _.
  split; [reflexivity|]. split; [reflexivity|].
  split; [reflexivity|]. split.
  { cbn. by rewrite length_insert. }
  split; [reflexivity|]. split; [reflexivity|].
  split; [reflexivity|]. split; [reflexivity|].
  split.
  - rewrite Hcompleted, length_insert.
    rewrite toggled_fields. simpl.
    destruct (truthy (Todo.completed old)); simpl;
      repeat case_decide; try done; lia.
  - split_and!.
    + trans (Some (count_priority (<[r := toggled now old]> s) 1));
        [reflexivity|by rewrite Hcount].
    + trans (Some (count_priority (<[r := toggled now old]> s) 2));
        [reflexivity|by rewrite Hcount].
    + trans (Some (count_priority (<[r := toggled now old]> s) 3));
        [reflexivity|by rewrite Hcount].
    + trans (Some (count_priority (<[r := toggled now old]> s) 4));
        [reflexivity|by rewrite Hcount].
    + trans (Some (count_priority (<[r := toggled now old]> s) 5));
        [reflexivity|by rewrite Hcount].
Qed.

Lemma toggle_moves_one_in_stats_witness :
  let old := Todo.Make 1%N (Some (py "A")) None (Some 5) (Some false) 0 None in
  let new_todo := Todo.Make 1%N (Some (py "A")) None (Some 5) (Some true) 0 (Some 4) in
  toggle_todo_completion 1%N 4 [old] = (Ok new_todo, [new_todo]) ∧
  ∃ d d', get_todo_stats [old] = (Ok d, [old]) ∧
          get_todo_stats [new_todo] = (Ok d', [new_todo]) ∧
          d !! "completed_todos" = Some 0 ∧ d' !! "completed_todos" = Some 1.
Proof.
  intros old new_todo. split; [reflexivity|].
  destruct (toggle_moves_one_in_stats 1%N 4 [old] new_todo [new_todo] eq_refl)
    as (d & d' & t & c & p & c' & p' & Hd & Hd' & _ & _ & Hc & Hc' & _ & _ & Hmove & _).
  exists d, d'. split; [exact Hd|]. split; [exact Hd'|].
  injection Hd as <-. injection Hd' as <-.
  split; reflexivity.
Defined.

(** ** Health check *)

Lemma step_length s q :
  Z.of_nat (length (step s q)) =
  Z.of_nat (length s) +
  match q with
  | Create body uuid4 now =>
      if succeeds (create_todo body uuid4 now s).1 then 1 else 0
  | Delete todo_id => if succeeds (delete_todo todo_id s).1 then -1 else 0
  | _ => 0
  end.
Proof.
  rewrite <-(length_fmap identity (step s q)), <-(length_fmap identity s).
  rewrite step_identity.
  destruct q as [completed priority limit skip| |todo_id|body uuid4 now
                |todo_id body now|todo_id|todo_id now]; try lia.
  - unfold handle. rewrite fmapM_succeeds.
    destruct (succeeds _); [|lia]. rewrite length_app. simpl. lia.
  - rewrite delete_todo_run.
    destruct (find_todo todo_id s) as [r|] eqn:E; simpl; [|lia].
    destruct (find_todo_lookup _ _ _ E) as (o & Ho & _).
    rewrite length_delete by (rewrite list_lookup_fmap, Ho; by eexists).
    apply lookup_lt_Some in Ho. rewrite length_fmap. lia.
Qed.

(** X19. [GET /health] never fails and never changes the storage; it
    reports the status "healthy", the version "1.0.0", the time of the
    request and the number of stored records. That number goes up by one
    with every successful [Create], down by one with every successful
    [Delete], and is left alone by every other request and by every
    request that fails. *)
Theorem health_check_counts_records now now' s q :
  ∃ h h',
    health_check now s = (Ok h, s) ∧
    health_check now' (step s q) = (Ok h', step s q) ∧
    HealthResponse.status h = "healthy" ∧
    HealthResponse.version h = "1.0.0" ∧
    HealthResponse.timestamp h = now ∧
    HealthResponse.total_todos h = Z.of_nat (length s) ∧
    HealthResponse.total_todos h' =
      HealthResponse.total_todos h +
      match q with
      | Create body uuid4 t =>
          if succeeds (create_todo body uuid4 t s).1 then 1 else 0
      | Delete todo_id => if succeeds (delete_todo todo_id s).1 then -1 else 0
      | List _ _ _ _ | Stats | Get _ | Update _ _ _ | Toggle _ _ => 0
      end.
Proof.
  unfold health_check. unfold_monad. eexists _, _.
  split; [reflexivity|]. split; [reflexivity|]. simpl.
  split_and!; [done..|]. rewrite step_length. by destruct q.
Qed.

(** ** Invariants, restated for any storage *)

(** X20. Starting from a storage whose records all have a non-blank title
    and a priority between 1 and 5, the records stay that way through any
    sequence of requests in which no [Update] body sets [title] or
    [priority] to [null]. *)
Theorem stored_records_stay_well_formed s qs :
  Forall well_formed s → Forall null_free qs →
  Forall well_formed (run_from s qs).
Proof. apply null_free_run_from_well_formed. Qed.

Lemma stored_records_stay_well_formed_witness :
  let qs :=
    [Create (Payload (Given (py " A ")) Missing Missing Missing) 1%N 0;
     Update 1%N (Payload (Given (py "B ")) Null (Given 4) Null) 1;
     Toggle 1%N 2] in
  run_from [] qs
  = [Todo.Make 1%N (Some (py "B")) None (Some 4) (Some true) 0 (Some 2)] ∧
  Forall well_formed (run_from [] qs).
Proof.
  intros qs. split; [reflexivity|].
  apply (stored_records_stay_well_formed [] qs); [constructor|].
  repeat constructor; simpl; discriminate.
Defined.

(** X21. For a stored record whose [completed] holds a boolean, two
    successful toggles in a row, whenever they happen, leave [completed]
    at the value it had before the first. *)
Theorem toggle_twice_restores_boolean todo_id now1 now2 s r o b :
  find_todo todo_id s = Some r → s !! r = Some o →
  Todo.completed o = Some b →
  ∃ o1 o2 s1 s2,
    toggle_todo_completion todo_id now1 s = (Ok o1, s1) ∧
    toggle_todo_completion todo_id now2 s1 = (Ok o2, s2) ∧
    s2 !! r = Some o2 ∧ Todo.completed o2 = Todo.completed o ∧
    Todo.completed o1 = Some (negb b).
Proof.
  intros Hr Ho Hb.
  destruct (toggle_twice todo_id now1 now2 s r o Hr Ho)
    as (o1 & o2 & s1 & s2 & H1 & H2 & _ & Hl & Hc).
  exists o1, o2, s1, s2. rewrite Hc, Hb. split_and!; try done.
  rewrite toggle_todo_completion_run, Hr, Ho in H1. injection H1 as <- _.
  rewrite toggled_fields. simpl. by rewrite Hb.
Qed.

Lemma toggle_twice_restores_boolean_witness :
  let o := Todo.Make 1%N (Some (py "A")) None (Some 5) (Some true) 0 None in
  ∃ o1 o2 s1 s2,
    toggle_todo_completion 1%N 3 [o] = (Ok o1, s1) ∧
    toggle_todo_completion 1%N 4 s1 = (Ok o2, s2) ∧
    s2 !! 0%nat = Some o2 ∧ Todo.completed o2 = Todo.completed o ∧
    Todo.completed o1 = Some (negb true).
Proof.
  intros o.
  exact (toggle_twice_restores_boolean 1%N 3 4 [o] 0%nat o true
           eq_refl eq_refl eq_refl).
Defined.

(** X22. The startup code appends three sample records to whatever the
    storage holds and cannot fail. If the records it finds are well formed
    and unmodified, then so are all records afterwards, and from there on
    both invariants hold along any sequence of requests without [null]
    titles or priorities: records stay well formed, and [updated_at] is
    [None] exactly for the records no [Update] or [Toggle] has hit. *)
Theorem lifespan_establishes_invariants id1 id2 id3 t1 t2 t3 s qs :
  Forall well_formed s → fresh s → Forall null_free qs →
  ∃ samples,
    lifespan id1 id2 id3 t1 t2 t3 s = (Ok tt, s ++ samples) ∧
    length samples = 3%nat ∧
    ids samples = [id1; id2; id3] ∧
    Forall well_formed (run_from (s ++ samples) qs) ∧
    Forall2 (λ todo n, Todo.updated_at todo = None ↔ n = 0%nat)
            (run_from (s ++ samples) qs)
            (run_tracked_from (s ++ samples) qs).2.
Proof.
  intros Hwf Hfresh Hqs.
  destruct (lifespan_run id1 id2 id3 t1 t2 t3)
    as (samples & Hrun & Hlen & Hsf & Hswf).
  exists samples.
  assert (lifespan id1 id2 id3 t1 t2 t3 s = (Ok tt, s ++ samples)
          ∧ ids samples = [id1; id2; id3]) as [-> Hids].
  { unfold lifespan in *. unfold_monad.
    destruct (sample_todos id1 id2 id3 t1 t2 t3) as [l|] eqn:E; [|done].
    injection Hrun as <-. split; [done|].
    vm_compute in E. by injection E as <-. }
  split_and!; [done..| |].
  - apply null_free_run_from_well_formed; [|done]. by apply Forall_app.
  - rewrite <-run_tracked_from_storage. apply run_tracked_from_invariant.
    by apply Forall_app.
Qed.

Lemma lifespan_establishes_invariants_witness :
  ∃ samples,
    lifespan 1%N 2%N 3%N 0 0 0 [] = (Ok tt, samples) ∧
    Forall well_formed (run_from samples [Toggle 2%N 5]).
Proof.
  destruct (lifespan_establishes_invariants 1%N 2%N 3%N 0 0 0 [] [Toggle 2%N 5])
    as (samples & Hrun & _ & _ & Hwf & _).
  - constructor.
  - constructor.
  - by repeat constructor.
  - exists samples. split; [exact Hrun | exact Hwf].
Defined.

(** ** Reading back what was written *)

(** X23. After a successful [Update] or [Toggle], [Get] on the same id
    returns the very record that the request returned, and the storage is
    as the request left it. *)
Theorem mutation_then_get todo_id s todo s' :
  (∀ body now, update_todo todo_id body now s = (Ok todo, s') →
               get_todo todo_id s' = (Ok todo, s')) ∧
  (∀ now, toggle_todo_completion todo_id now s = (Ok todo, s') →
          get_todo todo_id s' = (Ok todo, s')).
Proof.
  split.
  - intros body now. rewrite update_todo_run.
    destruct (TodoUpdate.validate body) as [u|]; [|done].
    destruct (find_todo todo_id s) as [r|] eqn:Hr; [|done].
    destruct (s !! r) as [o|] eqn:Ho; [|done].
    intros [= <- <-]. rewrite get_todo_run.
    erewrite find_todo_insert; [|done..|by rewrite updated_fields].
    by rewrite list_lookup_insert_eq by by eapply lookup_lt_Some.
  - intros now. rewrite toggle_todo_completion_run.
    destruct (find_todo todo_id s) as [r|] eqn:Hr; [|done].
    destruct (s !! r) as [o|] eqn:Ho; [|done].
    intros [= <- <-]. rewrite get_todo_run.
    erewrite find_todo_insert; [|done..|by rewrite toggled_fields].
    by rewrite list_lookup_insert_eq by by eapply lookup_lt_Some.
Qed.

Lemma mutation_then_get_witness :
  let old := Todo.Make 1%N (Some (py "A")) None (Some 5) (Some false) 0 None in
  let new_todo := Todo.Make 1%N (Some (py "A")) None (Some 2) (Some false) 0 (Some 7) in
  update_todo 1%N (Payload Missing Missing (Given 2) Missing) 7 [old]
  = (Ok new_todo, [new_todo]) ∧
  get_todo 1%N [new_todo] = (Ok new_todo, [new_todo]).
Proof.
  intros old new_todo. split; [reflexivity|].
  exact (proj1 (mutation_then_get 1%N [old] new_todo [new_todo])
           (Payload Missing Missing (Given 2) Missing) 7 eq_refl).
Defined.

(** X24. A successful [Create] shows in [Stats] as one more record:
    [total_todos] grows by one, the count of the new record's priority
    grows by one and the other priority counts stay, and the new record is
    counted as completed or as pending according to its flag. *)
Theorem create_adds_one_to_stats body uuid4 now s new_todo s' :
  create_todo body uuid4 now s = (Ok new_todo, s') →
  ∃ d d' total completed pending,
    get_todo_stats s = (Ok d, s) ∧ get_todo_stats s' = (Ok d', s') ∧
    d !! "total_todos" = Some total ∧ d' !! "total_todos" = Some (total + 1) ∧
    d !! "completed_todos" = Some completed ∧
    d !! "pending_todos" = Some pending ∧
    d' !! "completed_todos" =
      Some (if truthy (Todo.completed new_todo) then completed + 1 else completed) ∧
    d' !! "pending_todos" =
      Some (if truthy (Todo.completed new_todo) then pending else pending + 1) ∧
    ∀ n, 1 ≤ n ≤ 5 →
         ∃ c, d !! priority_key n = Some c ∧
              d' !! priority_key n =
                Some (if decide (Todo.priority new_todo = Some n) then c + 1 else c).
Proof.
  rewrite create_todo_run.
  destruct (TodoCreate.validate body) as [b|]; [|done].
  cbv zeta. intros [= <- <-].
  set (new_todo := Todo.Make _ _ _ _ _ _ _).
  assert (∀ n, count_priority (s ++ [new_todo]) n =
               if decide (Todo.priority new_todo = Some n)
               then count_priority s n + 1 else count_priority s n) as Hcount.
  { intros n. unfold count_priority. rewrite filter_app, length_app.
    rewrite filter_cons, filter_nil. case_decide; simpl; lia. }
  assert (Z.of_nat (length (filter (λ todo, truthy (Todo.completed todo))
                              (s ++ [new_todo]))) =
          Z.of_nat (length (filter (λ todo, truthy (Todo.completed todo)) s))
          + (if truthy (Todo.completed new_todo) then 1 else 0)) as Hcompleted.
  { rewrite filter_app, length_app, filter_cons, filter_nil.
    destruct (truthy (Todo.completed new_todo)) eqn:E;
      case_decide; simpl; try done; lia. }
  unfold get_todo_stats. unfold_monad.
  eexists _, _, _, _, _.
  split; [reflexivity|]. split; [reflexivity|]. split; [reflexivity|].
  split.
  { trans (Some (Z.of_nat (length (s ++ [new_todo])))); [reflexivity|].
    f_equal. rewrite length_app. simpl. lia. }
  split; [reflexivity|]. split; [reflexivity|]. split.
  { trans (Some (Z.of_nat (length (filter (λ todo, truthy (Todo.completed todo))
                                     (s ++ [new_todo]))))); [reflexivity|].
    f_equal. rewrite Hcompleted.
    destruct (truthy (Todo.completed new_todo)); lia. }
  split.
  { trans (Some (Z.of_nat (length (s ++ [new_todo]))
                 - Z.of_nat (length (filter (λ todo, truthy (Todo.completed todo))
                                       (s ++ [new_todo]))))); [reflexivity|].
    f_equal. rewrite Hcompleted, length_app.
    change (length [new_todo]) with 1%nat.
    destruct (truthy (Todo.completed new_todo)); lia. }
  intros n Hn. exists (count_priority s n).
  assert (n = 1 ∨ n = 2 ∨ n = 3 ∨ n = 4 ∨ n = 5) as Hcases by lia.
  destruct Hcases as [->|[->|[->|[->| ->]]]].
  - split; [reflexivity|].
    trans (Some (count_priority (s ++ [new_todo]) 1)); [reflexivity|].
    by rewrite Hcount.
  - split; [reflexivity|].
    trans (Some (count_priority (s ++ [new_todo]) 2)); [reflexivity|].
    by rewrite Hcount.
  - split; [reflexivity|].
    trans (Some (count_priority (s ++ [new_todo]) 3)); [reflexivity|].
    by rewrite Hcount.
  - split; [reflexivity|].
    trans (Some (count_priority (s ++ [new_todo]) 4)); [reflexivity|].
    by rewrite Hcount.
  - split; [reflexivity|].
    trans (Some (count_priority (s ++ [new_todo]) 5)); [reflexivity|].
    by rewrite Hcount.
Qed.

Lemma create_adds_one_to_stats_witness :
  ∃ new_todo d',
    create_todo (Payload (Given (py "A")) Missing (Given 5) Missing) 1%N 0 []
    = (Ok new_todo, [new_todo]) ∧
    get_todo_stats [new_todo] = (Ok d', [new_todo]) ∧
    d' !! "total_todos" = Some 1 ∧ d' !! "pending_todos" = Some 1 ∧
    d' !! "priority_5" = Some 1.
Proof.
  eexists _.
  destruct (create_adds_one_to_stats
              (Payload (Given (py "A")) Missing (Given 5) Missing) 1%N 0 []
              _ _ eq_refl)
    as (d & d' & t & c & p & Hd & Hd' & _).
  exists d'. split; [reflexivity|]. split; [exact Hd'|].
  injection Hd' as <-. split_and!; reflexivity.
Defined.

(** ** Strings that cannot be encoded *)

Example lone_surrogate_rejected :
  let s := [Todo.Make 1%N (Some (py "A")) None (Some 5) (Some false) 0 None] in
  create_todo (Payload (Given [65; 55296]%N) Missing Missing Missing) 2%N 0 s
  = (Raise RequestValidationError, s) ∧
  create_todo (Payload (Given (py "A")) (Given [55296]%N) Missing Missing) 2%N 0 s
  = (Raise RequestValidationError, s) ∧
  update_todo 1%N (Payload (Given [65; 55296]%N) Missing Missing Missing) 1 s
  = (Raise RequestValidationError, s) ∧
  update_todo 1%N (Payload Missing (Given [57343]%N) Missing Missing) 1 s
  = (Raise RequestValidationError, s).
Proof. by vm_compute. Qed.
